(** * A convolutional autoencoder assembled from layer-building helpers

    Shallow embedding of [zoo/autoencoder/models_c.py] (class [Composable])
    and [zoo/autoencoder/autoencoder_c.py] (class [AutoEncoder]).

    The two classes only sequence calls into the layer library.  A layer is
    therefore embedded as the constructor call the code issues (its class and
    its arguments), a tensor as the chain of layers applied to an input
    placeholder, and a model as an object of a heap, so that in-place updates
    ([compile]) and fresh allocations ([extract]) are visible.  Argument
    checks made inside the layer library are not part of the repository and
    are not embedded: a layer records the arguments it was given. *)

From Stdlib Require Import ZArith QArith Qminmax Lqa Lia Ascii String List.
From stdpp Require Import base option list gmap strings.

Local Open Scope string_scope.
Local Open Scope list_scope.
Local Open Scope Z_scope.

(** ** Python values, exceptions and calls *)
Module Py.

(** Kernel regularizers of [tensorflow.keras.regularizers]. *)
Inductive regularizer :=
| l1 (rate : Q)
| l2 (rate : Q).

(** The values that travel through keyword dictionaries: [None], a string
    (an initializer or optimizer identifier), a number, a regularizer
    object, or a list of dictionaries (the per-stage layer specs). *)
Inductive value :=
| VNone
| VStr (s : string)
| VNum (q : Q)
| VReg (r : regularizer)
| VList (items : list (gmap string Z)).

Inductive exn :=
| KeyError (key : string)
| IndexError
| TypeError
| AttributeError
| ShapeMismatchError.

Inductive result (A : Type) :=
| Ok (a : A)
| Raise (e : exn).
Arguments Ok {A} a.
Arguments Raise {A} e.

Definition bind {A B} (r : result A) (k : A -> result B) : result B :=
  match r with
  | Ok a => k a
  | Raise e => Raise e
  end.

(** [d[k]] on a dictionary. *)
Definition getitem {V} (d : gmap string V) (k : string) : result V :=
  match d !! k with
  | Some v => Ok v
  | None => Raise (KeyError k)
  end.

(** [l[i]] on a list: a negative index counts from the end. *)
Definition index {A} (l : list A) (i : Z) : result A :=
  let n := Z.of_nat (length l) in
  let j := if i <? 0 then i + n else i in
  if (j <? 0) || (n <=? j) then Raise IndexError
  else match l !! Z.to_nat j with
       | Some a => Ok a
       | None => Raise IndexError
       end.

(** [range(start, stop, step)] for a non-zero [step]. *)
Definition range (start stop step : Z) : list Z :=
  let count :=
    if 0 <? step then (stop - start + step - 1) / step
    else (start - stop - step - 1) / (- step) in
  map (fun k => start + Z.of_nat k * step) (seq 0 (Z.to_nat count)).

(** [l[0:k]]: a negative [k] counts from the end. *)
Definition slice_to {A} (l : list A) (k : Z) : list A :=
  let n := Z.of_nat (length l) in
  take (Z.to_nat (if k <? 0 then k + n else k)) l.

(** What iterating over a value yields: the dictionaries of a list, or the
    characters of a string.  Other values are not iterable and have no
    length. *)
Inductive item :=
| Spec (d : gmap string Z)
| Char (c : ascii).

Definition iter (v : value) : result (list item) :=
  match v with
  | VList l => Ok (Spec <$> l)
  | VStr s => Ok (Char <$> list_ascii_of_string s)
  | VNone | VNum _ | VReg _ => Raise TypeError
  end.

(** [len(v)]. *)
Definition len (v : value) : result Z :=
  match iter v with
  | Ok l => Ok (Z.of_nat (length l))
  | Raise e => Raise e
  end.

(** [it[k]] with a string key: only a dictionary takes one. *)
Definition subscript (it : item) (k : string) : result Z :=
  match it with
  | Spec d => getitem d k
  | Char _ => Raise TypeError
  end.

(** [for a in xs: s = body(s, a)], stopping at the first exception. *)
Fixpoint for_each {A S} (body : S -> A -> result S) (xs : list A) (s : S)
    : result S :=
  match xs with
  | [] => Ok s
  | a :: rest => bind (body s a) (for_each body rest)
  end.

(** Binding of one declared keyword parameter of a function that also has
    a [**rest] parameter: the caller's keyword of that name goes to the
    declared parameter (its default when absent), and [rest] receives the
    remaining keywords only. *)
Definition bind_keyword (name : string) (dflt : value)
    (kwargs : gmap string value) : value * gmap string value :=
  (default dflt (kwargs !! name), delete name kwargs).

End Py.

#[global] Instance result_ret : MRet Py.result := @Py.Ok.
#[global] Instance result_bind : MBind Py.result :=
  fun A B k r => Py.bind r k.

(** ** The layer library, as far as the two classes use it *)
Module Keras.
Import Py.

(** An [int] or a pair, as accepted for kernel sizes and strides. *)
Inductive dims :=
| Scalar (n : Z)
| Pair (a b : Z).

(** A layer constructor call with the arguments it was given. *)
Inductive layer :=
| Dense (units : Z) (activation : value) (use_bias : bool)
        (kernel_initializer kernel_regularizer : value)
| Conv2D (filters : Z) (kernel_size strides : dims) (padding : string)
         (activation : value) (use_bias : bool)
         (kernel_initializer kernel_regularizer : value)
| Conv2DTranspose (filters : Z) (kernel_size strides : dims)
         (padding : string) (activation : value) (use_bias : bool)
         (kernel_initializer kernel_regularizer : value)
| BatchNormalization
| ReLU (max_value : option Q).

Definition kernel_initializer_of (l : layer) : option value :=
  match l with
  | Dense _ _ _ ki _ => Some ki
  | Conv2D _ _ _ _ _ _ ki _ => Some ki
  | Conv2DTranspose _ _ _ _ _ _ ki _ => Some ki
  | BatchNormalization | ReLU _ => None
  end.

Definition kernel_regularizer_of (l : layer) : option value :=
  match l with
  | Dense _ _ _ _ kr => Some kr
  | Conv2D _ _ _ _ _ _ _ kr => Some kr
  | Conv2DTranspose _ _ _ _ _ _ _ kr => Some kr
  | BatchNormalization | ReLU _ => None
  end.

(** A weight array.  A new layer starts from arrays the library fills in
    (a kernel drawn from the initializer, constant zeros or ones); the
    numbers of a drawn array are the random generator's and are left
    symbolic: two [Drawn] arrays of two layer instances stand for two
    independent draws, and their being the same term says nothing about
    their numbers.  [Values] is an array of given numbers, such as learned
    weights. *)
Inductive array :=
| Drawn (initializer : value)
| Zeros
| Ones
| Values (data : list Q).

(** Modelled from the spec: the weight arrays a layer of the library owns,
    which the repository relies on without defining ("6 sets per layer" in
    [extract]).  Section 3: each stage contributes exactly 6 weight-bearing
    entries, the convolution kernel, the convolution bias and 4
    batch-normalization statistics; the activation carries none. *)
Definition initial_variables (l : layer) : list array :=
  match l with
  | Dense _ _ use_bias ki _
  | Conv2D _ _ _ _ _ use_bias ki _
  | Conv2DTranspose _ _ _ _ _ use_bias ki _ =>
      Drawn ki :: (if use_bias then [Zeros] else [])
  | BatchNormalization => [Ones; Zeros; Zeros; Ones]
  | ReLU _ => []
  end.

(** A layer instance of a graph: its configuration and its weights. *)
Record built := { config : layer; variables : list array }.

(** A symbolic tensor: the input placeholder it descends from and the
    layers applied since, oldest first. *)
Record tensor := { source : list Z; history : list built }.

(** [Input(shape)]. *)
Definition Input (shape : list Z) : tensor :=
  {| source := shape; history := [] |}.

(** A new instance of a layer, with the arrays it starts from. *)
Definition instantiate (l : layer) : built :=
  {| config := l; variables := initial_variables l |}.

(** [L(...)(x)]: instantiate the layer and apply it to [x].  The call is
    recorded with the arguments it was given; the argument checks the layer
    library makes (a filter count that is not positive, an input of the
    wrong rank, an unknown initializer) are not embedded, so no statement
    about a successful run speaks for arguments the library rejects. *)
Definition call (l : layer) (x : tensor) : tensor :=
  {| source := source x; history := history x ++ [instantiate l] |}.

Record training := { loss : string; optimizer : value; metrics : list string }.

Record model := {
  inputs : list Z;
  layers : list built;
  compiled : option training
}.

(** [Model(inputs, outputs)]: the layers on the path from [inputs] to
    [outputs]. *)
Definition Model (i o : tensor) : model :=
  {| inputs := source i; layers := history o; compiled := None |}.

(** [m.get_weights()]: the arrays of all layers, in construction order. *)
Definition get_weights (m : model) : list array :=
  concat (variables <$> layers m).

(** Hand out [ws] to the layers in order, each taking as many arrays as it
    owns. *)
Fixpoint load (ls : list built) (ws : list array) : list built :=
  match ls with
  | [] => []
  | b :: ls' =>
      let n := length (variables b) in
      {| config := config b; variables := take n ws |} :: load ls' (drop n ws)
  end.

(** Modelled from the spec: [m.set_weights(ws)], a method of the library's
    model container, absent from the repository.  Section 4.2: loading
    fails with [ShapeMismatchError] if the weight count does not exactly
    match the graph's expected parameter count; otherwise the arrays are
    loaded in order. *)
Definition set_weights (m : model) (ws : list array) : result model :=
  if decide (length ws = length (get_weights m)) then
    Ok {| inputs := inputs m; layers := load (layers m) ws; compiled := compiled m |}
  else Raise ShapeMismatchError.

(** Modelled from the spec: [m.compile(loss=..., optimizer=..., metrics=...)],
    a method of the library's model container, absent from the repository.
    Section 4.2: compiling attaches a training configuration (loss,
    optimizer, metrics) to the model; recompiling simply replaces the
    training configuration. *)
Definition compile (m : model) (t : training) : model :=
  {| inputs := inputs m; layers := layers m; compiled := Some t |}.

(** Modelled from the spec: the element-wise function of the library's
    [ReLU(max_value)] layer, absent from the repository.  Section 4.1: a
    rectified-linear transformation clamped at an optional maximum value;
    when unset, the standard unbounded ReLU.  The rectifier comes first,
    then, when [max_value] is given, clipping to [[0, max_value]].  Tensor
    entries are idealised as rationals. *)
Definition relu (max_value : option Q) (v : Q) : Q :=
  let r := Qmax v 0 in
  match max_value with
  | None => r
  | Some m => Qmax (Qmin r m) 0
  end.

End Keras.

(** ** [models_c.py]: class [Composable] *)
Module Composable.
Import Py.

(** The class attributes [init_weights], [reg] and [relu]. *)
Record attrs := { init_weights : value; reg : value; relu : option Q }.

(** Their values as the class body declares them. *)
Definition declared : attrs :=
  {| init_weights := VStr "he_normal";
     reg := VReg (l2 (1 # 1000));
     relu := None |}.

(** The instance dictionary.  [init_weights], [reg] and [relu] are present
    only when the constructor stored them ([None] here means "not in the
    instance dictionary"); [_model] holds a reference to a model object or
    Python's [None]. *)
Record object := {
  self_init_weights : option value;
  self_reg : option value;
  self_relu : option Q;
  _encoding : option Keras.tensor;
  _embedding : option Keras.tensor;
  _probabilities : option Keras.tensor;
  _softmax : option Keras.tensor;
  _model : option nat
}.

Definition not_None (v : value) : option value :=
  match v with
  | VNone => None
  | _ => Some v
  end.

(** [Composable.__init__(self, init_weights=None, reg=None, relu=None)]. *)
Definition __init__ (init_weights reg : value) (relu : option Q) : object :=
  {| self_init_weights := not_None init_weights;
     self_reg := not_None reg;
     self_relu := relu;
     _encoding := None;
     _embedding := None;
     _probabilities := None;
     _softmax := None;
     _model := None |}.

(** Attribute reads on an instance, [self.init_weights] and [self.reg]:
    the instance dictionary first, then the class. *)
Definition getattr_init_weights (cls : attrs) (self : object) : value :=
  default (init_weights cls) (self_init_weights self).

Definition getattr_reg (cls : attrs) (self : object) : value :=
  default (reg cls) (self_reg self).

Definition getattr_relu (cls : attrs) (self : object) : option Q :=
  match self_relu self with
  | Some m => Some m
  | None => relu cls
  end.

(** [self._model = m]. *)
Definition set__model (self : object) (m : option nat) : object :=
  {| self_init_weights := self_init_weights self;
     self_reg := self_reg self;
     self_relu := self_relu self;
     _encoding := _encoding self;
     _embedding := _embedding self;
     _probabilities := _probabilities self;
     _softmax := _softmax self;
     _model := m |}.

(** [@staticmethod ReLU(x)]. *)
Definition ReLU (cls : attrs) (x : Keras.tensor) : Keras.tensor :=
  Keras.call (Keras.ReLU (relu cls)) x.

(** [@staticmethod Dense(x, units, activation=None, use_bias=True,
    **hyperparameters)]. *)
Definition Dense (cls : attrs) (x : Keras.tensor) (units : Z)
    (activation : value) (use_bias : bool)
    (hyperparameters : gmap string value) : Keras.tensor :=
  let reg :=
    match hyperparameters !! "reg" with
    | Some v => v
    | None => reg cls
    end in
  let init_weights :=
    match hyperparameters !! "init_weights" with
    | Some v => v
    | None => init_weights cls
    end in
  Keras.call (Keras.Dense units activation use_bias init_weights reg) x.

(** [@staticmethod Conv2D(x, n_filters, kernel_size, strides=(1, 1),
    padding='valid', activation=None, use_bias=True, **hyperparameters)]. *)
Definition Conv2D (cls : attrs) (x : Keras.tensor) (n_filters : Z)
    (kernel_size strides : Keras.dims) (padding : string)
    (activation : value) (use_bias : bool)
    (hyperparameters : gmap string value) : Keras.tensor :=
  let reg :=
    match hyperparameters !! "reg" with
    | Some v => v
    | None => reg cls
    end in
  let init_weights :=
    match hyperparameters !! "init_weights" with
    | Some v => v
    | None => init_weights cls
    end in
  Keras.call (Keras.Conv2D n_filters kernel_size strides padding activation
                use_bias init_weights reg) x.

(** [@staticmethod Conv2DTranspose(x, n_filters, kernel_size,
    strides=(1, 1), padding='valid', activation=None, use_bias=True,
    **hyperparameters)]. *)
Definition Conv2DTranspose (cls : attrs) (x : Keras.tensor) (n_filters : Z)
    (kernel_size strides : Keras.dims) (padding : string)
    (activation : value) (use_bias : bool)
    (hyperparameters : gmap string value) : Keras.tensor :=
  let reg :=
    match hyperparameters !! "reg" with
    | Some v => v
    | None => reg cls
    end in
  let init_weights :=
    match hyperparameters !! "init_weights" with
    | Some v => v
    | None => init_weights cls
    end in
  Keras.call (Keras.Conv2DTranspose n_filters kernel_size strides padding
                activation use_bias init_weights reg) x.

End Composable.

(** ** [autoencoder_c.py]: class [AutoEncoder] *)
Module AutoEncoder.
Import Py.

(** Class attribute [layers]: number of filters per layer. *)
Definition layers : list (gmap string Z) :=
  [ {[ "n_filters" := 64 ]}; {[ "n_filters" := 32 ]}; {[ "n_filters" := 16 ]} ].

(** [AutoEncoder.reg] and [AutoEncoder.init_weights]: the subclass body
    declares neither, so the lookup ends in [Composable]. *)
Definition reg (cls : Composable.attrs) : value := Composable.reg cls.
Definition init_weights (cls : Composable.attrs) : value :=
  Composable.init_weights cls.

(** An [AutoEncoder] instance: the base part plus [self.layers] and
    [self.input_shape]. *)
Record object := {
  base : Composable.object;
  self_layers : value;
  input_shape : list Z
}.

(** The model objects of the program, by reference. *)
Abbreviation heap := (gmap nat Keras.model).

(** One downsampling stage of [encoder]'s loop body. *)
Definition pool (cls : Composable.attrs) (init_weights reg : value)
    (x : Keras.tensor) (layer : item) : result Keras.tensor :=
  n_filters ← subscript layer "n_filters";
  let x := Keras.call (Keras.Conv2D n_filters (Keras.Pair 3 3) (Keras.Scalar 2)
                         "same" VNone true init_weights reg) x in
  let x := Keras.call Keras.BatchNormalization x in
  let x := Composable.ReLU cls x in
  Ok x.

(** [@staticmethod encoder(x, init_weights=None, **metaparameters)],
    called with [x] passed positionally and the keyword arguments [kwargs].
    A keyword named [x] itself (Python: "multiple values for argument") is
    outside the embedding. *)
Definition encoder (cls : Composable.attrs) (x : Keras.tensor)
    (kwargs : gmap string value) : result Keras.tensor :=
  let '(init_weights, metaparameters) :=
    bind_keyword "init_weights" VNone kwargs in
  layers ← getitem metaparameters "layers";
  let reg :=
    match metaparameters !! "reg" with
    | Some v => v
    | None => reg cls
    end in
  let init_weights :=
    match metaparameters !! "init_weights" with
    | Some v => v
    | None => AutoEncoder.init_weights cls
    end in
  layers ← iter layers;
  for_each (pool cls init_weights reg) layers x.

(** One upsampling stage: [Conv2DTranspose], [BatchNormalization], [ReLU]. *)
Definition unpool (cls : Composable.attrs) (init_weights reg : value)
    (n_filters : Z) (x : Keras.tensor) : Keras.tensor :=
  let x := Keras.call (Keras.Conv2DTranspose n_filters (Keras.Pair 3 3)
                         (Keras.Scalar 2) "same" VNone true init_weights reg) x in
  let x := Keras.call Keras.BatchNormalization x in
  Composable.ReLU cls x.

(** [@staticmethod decoder(x, init_weights=None, **metaparameters)],
    called with [x] passed positionally and the keyword arguments [kwargs].
    A keyword named [x] itself (Python: "multiple values for argument") is
    outside the embedding. *)
Definition decoder (cls : Composable.attrs) (x : Keras.tensor)
    (kwargs : gmap string value) : result Keras.tensor :=
  let '(init_weights, metaparameters) :=
    bind_keyword "init_weights" VNone kwargs in
  layers ← getitem metaparameters "layers";
  let reg :=
    match metaparameters !! "reg" with
    | Some v => v
    | None => reg cls
    end in
  let init_weights :=
    match metaparameters !! "init_weights" with
    | Some v => v
    | None => AutoEncoder.init_weights cls
    end in
  n ← len layers;
  items ← iter layers;
  x ← for_each
        (fun x i =>
           layer ← index items i;
           n_filters ← subscript layer "n_filters";
           Ok (unpool cls init_weights reg n_filters x))
        (range (n - 1) 0 (-1)) x;
  Ok (unpool cls init_weights reg 3 x).

(** [AutoEncoder.__init__(self, layers=None, input_shape=(32, 32, 3),
    init_weights='he_normal', reg=None)].  Returns the instance and the
    heap with the new model object in it. *)
Definition __init__ (cls : Composable.attrs) (layers : value)
    (input_shape : list Z) (init_weights reg : value) (h : heap)
    : result object * heap :=
  let super := Composable.__init__ init_weights reg None in
  let layers :=
    match layers with
    | VNone => VList AutoEncoder.layers
    | _ => layers
    end in
  let inputs := Keras.Input input_shape in
  match encoder cls inputs {[ "layers" := layers ]} with
  | Raise e => (Raise e, h)
  | Ok encoder =>
      match decoder cls encoder {[ "layers" := layers ]} with
      | Raise e => (Raise e, h)
      | Ok outputs =>
          let m := fresh (dom h) in
          (Ok {| base := Composable.set__model super (Some m);
                 self_layers := layers;
                 input_shape := input_shape |},
           <[ m := Keras.Model inputs outputs ]> h)
      end
  end.

(** [compile(self, optimizer='adam')]. *)
Definition compile (self : object) (optimizer : value) (h : heap)
    : result unit * heap :=
  match Composable._model (base self) with
  | None => (Raise AttributeError, h)
  | Some m =>
      match h !! m with
      | None => (Raise AttributeError, h)
      | Some model =>
          (Ok tt,
           <[ m := Keras.compile model
                     {| Keras.loss := "mse";
                        Keras.optimizer := optimizer;
                        Keras.metrics := ["accuracy"] |} ]> h)
      end
  end.

(** [extract(self)].  Returns a reference to the new encoder model. *)
Definition extract (cls : Composable.attrs) (self : object) (h : heap)
    : result nat * heap :=
  match Composable._model (base self) with
  | None => (Raise AttributeError, h)
  | Some m =>
      match h !! m with
      | None => (Raise AttributeError, h)
      | Some model =>
          let weights := Keras.get_weights model in
          match len (self_layers self) with
          | Raise e => (Raise e, h)
          | Ok n =>
              let encoder_weights := slice_to weights (6 * n) in
              let inputs := Keras.Input (input_shape self) in
              match encoder cls inputs {[ "layers" := self_layers self ]} with
              | Raise e => (Raise e, h)
              | Ok outputs =>
                  let e := fresh (dom h) in
                  let encoder := Keras.Model inputs outputs in
                  match Keras.set_weights encoder encoder_weights with
                  | Raise ex => (Raise ex, <[ e := encoder ]> h)
                  | Ok loaded => (Ok e, <[ e := loaded ]> h)
                  end
              end
          end
      end
  end.

End AutoEncoder.

(** ** The stages and the precedence rule as the specification words them *)
Module Spec.
Import Py.

(** A downsampling stage: stride-2 3x3 same-padding convolution with
    [n_filters] filters, normalization, clamped ReLU. *)
Definition down_stage (clamp : option Q) (init reg : value) (n_filters : Z)
    : list Keras.layer :=
  [ Keras.Conv2D n_filters (Keras.Pair 3 3) (Keras.Scalar 2) "same" VNone true
      init reg;
    Keras.BatchNormalization;
    Keras.ReLU clamp ].

(** An upsampling stage: stride-2 3x3 same-padding transposed convolution
    with [n_filters] filters, normalization, clamped ReLU. *)
Definition up_stage (clamp : option Q) (init reg : value) (n_filters : Z)
    : list Keras.layer :=
  [ Keras.Conv2DTranspose n_filters (Keras.Pair 3 3) (Keras.Scalar 2) "same"
      VNone true init reg;
    Keras.BatchNormalization;
    Keras.ReLU clamp ].

(** The filter counts [fs] of the layer specs [ls]. *)
Definition filters_of (ls : list (gmap string Z)) (fs : list Z) : Prop :=
  Forall2 (fun d n => d !! "n_filters" = Some n) ls fs.

(** A tensor [x] extended by the given stages. *)
Definition extend (x : Keras.tensor) (stages : list (list Keras.layer))
    : Keras.tensor :=
  {| Keras.source := Keras.source x;
     Keras.history := Keras.history x ++ (Keras.instantiate <$> concat stages) |}.

(** The stages of a full autoencoder over the filter counts [fs]: the
    encoder's, the decoder's mirrored ones, the fixed 3-channel one. *)
Definition autoencoder_stages (clamp : option Q) (init reg : value)
    (fs : list Z) : list (list Keras.layer) :=
  (down_stage clamp init reg <$> fs)
  ++ (up_stage clamp init reg <$> rev (drop 1 fs))
  ++ [up_stage clamp init reg 3].

(** Override precedence in the specification's words: the call-site override,
    else the per-instance setting, else the class default. *)
Definition resolve (call_site instance : option value) (class_default : value)
    : value :=
  match call_site with
  | Some v => v
  | None =>
      match instance with
      | Some v => v
      | None => class_default
      end
  end.

(** What the static helpers do: the call-site override, else the class
    default. *)
Definition resolve_static (call_site : option value) (class_default : value)
    : value :=
  match call_site with
  | Some v => v
  | None => class_default
  end.

(** The layer instance [b], if it takes a kernel initializer (regularizer)
    at all, was given [v]. *)
Definition initializer_is (v : value) (b : Keras.built) : Prop :=
  forall ki, Keras.kernel_initializer_of (Keras.config b) = Some ki -> ki = v.

Definition regularizer_is (v : value) (b : Keras.built) : Prop :=
  forall kr, Keras.kernel_regularizer_of (Keras.config b) = Some kr -> kr = v.

(** Two models of one architecture: the same inputs and layer
    configurations, each layer with as many arrays; the numbers in the
    arrays may differ (as after training). *)
Definition same_architecture (m m' : Keras.model) : Prop :=
  Keras.inputs m = Keras.inputs m' /\
  Forall2 (fun b b' =>
             Keras.config b = Keras.config b' /\
             length (Keras.variables b) = length (Keras.variables b'))
          (Keras.layers m) (Keras.layers m').

End Spec.

(** ** Concrete programs used as test inputs *)
Module Example.
Import Py.

(** [autoencoder = AutoEncoder()] in an empty heap. *)
Definition default_run : result AutoEncoder.object * gmap nat Keras.model :=
  AutoEncoder.__init__ Composable.declared VNone [32; 32; 3]
    (VStr "he_normal") VNone ∅.

(** The instance [AutoEncoder()] returns. *)
Definition default_self : AutoEncoder.object :=
  {| AutoEncoder.base :=
       Composable.set__model
         (Composable.__init__ (VStr "he_normal") VNone None) (Some 0%nat);
     AutoEncoder.self_layers := VList AutoEncoder.layers;
     AutoEncoder.input_shape := [32; 32; 3] |}.

(** The model [AutoEncoder()] builds. *)
Definition default_model : Keras.model :=
  Keras.Model (Keras.Input [32; 32; 3])
    (Spec.extend (Keras.Input [32; 32; 3])
       (Spec.autoencoder_stages None (VStr "he_normal")
          (VReg (l2 (1 # 1000))) [64; 32; 16])).

(** [AutoEncoder(layers=[{'n_filters': 64}])] in an empty heap: one stage
    each way, 12 weight arrays. *)
Definition single_run : result AutoEncoder.object * gmap nat Keras.model :=
  AutoEncoder.__init__ Composable.declared (VList [ {[ "n_filters" := 64 ]} ])
    [32; 32; 3] (VStr "he_normal") VNone ∅.

Definition single_model : Keras.model :=
  Keras.Model (Keras.Input [32; 32; 3])
    (Spec.extend (Keras.Input [32; 32; 3])
       (Spec.autoencoder_stages None (VStr "he_normal")
          (VReg (l2 (1 # 1000))) [64])).

(** [AutoEncoder(init_weights='glorot_uniform', reg=l1(0.01))] in an empty
    heap: an instance with settings of its own. *)
Definition custom_run : result AutoEncoder.object * gmap nat Keras.model :=
  AutoEncoder.__init__ Composable.declared VNone [32; 32; 3]
    (VStr "glorot_uniform") (VReg (l1 (1 # 100))) ∅.

Definition custom_self : AutoEncoder.object :=
  {| AutoEncoder.base :=
       Composable.set__model
         (Composable.__init__ (VStr "glorot_uniform") (VReg (l1 (1 # 100)))
            None) (Some 0%nat);
     AutoEncoder.self_layers := VList AutoEncoder.layers;
     AutoEncoder.input_shape := [32; 32; 3] |}.

(** [Composable(relu=6.0)]: an instance with a clamp of its own. *)
Definition clamped_self : Composable.object :=
  Composable.__init__ VNone VNone (Some (6 # 1)).

(** [AutoEncoder(layers=[])] in an empty heap. *)
Definition empty_run : result AutoEncoder.object * gmap nat Keras.model :=
  AutoEncoder.__init__ Composable.declared (VList []) [32; 32; 3]
    (VStr "he_normal") VNone ∅.

End Example.

(** ** Python sequences *)
Section PySequences.
Import Py.

Lemma countdown (m : nat) :
  map (fun k : nat => Z.of_nat m + Z.of_nat k * -1) (seq 0 m)
  = Z.of_nat <$> rev (seq 1 m).
Proof.
  induction m as [|m IH]; [reflexivity|].
  replace (seq 1 (S m)) with (seq 1 m ++ [S m]) by (symmetry; apply seq_S).
  rewrite rev_app_distr. simpl rev. simpl app. rewrite fmap_cons.
  rewrite <- cons_seq, <- seq_shift. simpl map. f_equal.
  rewrite map_map, seq_shift, <- IH. apply map_ext. intros k. lia.
Qed.

Lemma range_down (m : nat) :
  range (Z.of_nat m) 0 (-1) = Z.of_nat <$> rev (seq 1 m).
Proof.
  unfold range. change (0 <? -1) with false. cbv iota.
  replace ((Z.of_nat m - 0 - -1 - 1) / - -1) with (Z.of_nat m)
    by (rewrite Z.div_1_r; lia).
  rewrite Nat2Z.id. apply countdown.
Qed.

Lemma index_nat {A} (l : list A) (i : nat) (a : A) :
  l !! i = Some a -> index l (Z.of_nat i) = Ok a.
Proof.
  intros Hi. unfold index.
  pose proof (lookup_lt_Some _ _ _ Hi) as Hlt.
  destruct (Z.ltb_spec (Z.of_nat i) 0) as [?|_]; [lia|].
  destruct (Z.ltb_spec (Z.of_nat i) 0) as [?|_]; [lia|].
  destruct (Z.leb_spec (Z.of_nat (length l)) (Z.of_nat i)) as [?|_]; [lia|].
  simpl. rewrite Nat2Z.id, Hi. reflexivity.
Qed.

Lemma slice_to_take {A} (l : list A) (k : nat) :
  slice_to l (Z.of_nat k) = take k l.
Proof.
  unfold slice_to.
  destruct (Z.ltb_spec (Z.of_nat k) 0) as [?|_]; [lia|].
  by rewrite Nat2Z.id.
Qed.

Lemma bind_Ok {A B} (a : A) (k : A -> result B) : bind (Ok a) k = k a.
Proof. reflexivity. Qed.

Lemma mbind_Ok {A B} (a : A) (k : A -> result B) : (Ok a ≫= k) = k a.
Proof. reflexivity. Qed.

Lemma for_each_cons {A S} (body : S -> A -> result S) (a : A) (xs : list A)
    (s : S) :
  for_each body (a :: xs) s = bind (body s a) (for_each body xs).
Proof. reflexivity. Qed.

Lemma for_each_app {A S} (body : S -> A -> result S) (xs ys : list A) (s : S) :
  for_each body (xs ++ ys) s = bind (for_each body xs s) (for_each body ys).
Proof.
  revert s. induction xs as [|a xs IH]; intros s; simpl; [done|].
  destruct (body s a); simpl; [apply IH | done].
Qed.

End PySequences.

(** ** What [encoder] and [decoder] build *)
Section Construction.
Import Py.
Variable cls : Composable.attrs.

Lemma extend_nil (x : Keras.tensor) : Spec.extend x [] = x.
Proof. destruct x. unfold Spec.extend. simpl. by rewrite app_nil_r. Qed.

Lemma extend_extend (x : Keras.tensor) (s1 s2 : list (list Keras.layer)) :
  Spec.extend (Spec.extend x s1) s2 = Spec.extend x (s1 ++ s2).
Proof.
  unfold Spec.extend. simpl. f_equal.
  by rewrite concat_app, fmap_app, app_assoc.
Qed.

Lemma pool_stage (iw rg : value) (x : Keras.tensor) (d : gmap string Z) (n : Z) :
  d !! "n_filters" = Some n ->
  AutoEncoder.pool cls iw rg x (Spec d)
  = Ok (Spec.extend x [Spec.down_stage (Composable.relu cls) iw rg n]).
Proof.
  intros Hd. unfold AutoEncoder.pool, subscript, getitem. rewrite Hd.
  unfold Spec.extend, Composable.ReLU, Keras.call. simpl.
  by rewrite <- !app_assoc.
Qed.

Lemma unpool_stage (iw rg : value) (n : Z) (x : Keras.tensor) :
  AutoEncoder.unpool cls iw rg n x
  = Spec.extend x [Spec.up_stage (Composable.relu cls) iw rg n].
Proof.
  unfold AutoEncoder.unpool, Spec.extend, Composable.ReLU, Keras.call. simpl.
  by rewrite <- !app_assoc.
Qed.

Lemma encoder_loop (iw rg : value) (ls : list (gmap string Z)) (fs : list Z) :
  Spec.filters_of ls fs ->
  forall x,
    for_each (AutoEncoder.pool cls iw rg) (Spec <$> ls) x
    = Ok (Spec.extend x (Spec.down_stage (Composable.relu cls) iw rg <$> fs)).
Proof.
  induction 1 as [|d n ls fs Hd _ IH]; intros x.
  - simpl. by rewrite extend_nil.
  - rewrite !fmap_cons. simpl for_each. rewrite (pool_stage _ _ _ _ _ Hd).
    simpl. rewrite IH. by rewrite extend_extend.
Qed.

(** The first spec without its key stops the loop with a [KeyError]. *)
Lemma encoder_loop_KeyError (iw rg : value) (ls : list (gmap string Z)) :
  Exists (fun d => d !! "n_filters" = None) ls ->
  forall x,
    for_each (AutoEncoder.pool cls iw rg) (Spec <$> ls) x
    = Raise (KeyError "n_filters").
Proof.
  induction ls as [|d ls IH]; intros Hex x; [by apply Exists_nil in Hex|].
  rewrite fmap_cons. simpl for_each.
  destruct (d !! "n_filters") as [n|] eqn:Hd.
  - rewrite (pool_stage _ _ _ _ _ Hd). simpl. apply IH.
    apply Exists_cons in Hex as [Hex|Hex]; [congruence|done].
  - unfold AutoEncoder.pool, subscript, getitem. by rewrite Hd.
Qed.

Lemma encoder_built (x : Keras.tensor) (kwargs : gmap string value)
    (ls : list (gmap string Z)) (fs : list Z) :
  kwargs !! "layers" = Some (VList ls) ->
  Spec.filters_of ls fs ->
  AutoEncoder.encoder cls x kwargs
  = Ok (Spec.extend x
          (Spec.down_stage (Composable.relu cls) (Composable.init_weights cls)
             (Spec.resolve_static (kwargs !! "reg") (Composable.reg cls)) <$> fs)).
Proof.
  intros Hl Hfs. unfold AutoEncoder.encoder, bind_keyword, getitem.
  rewrite (lookup_delete_ne kwargs "init_weights" "layers") by discriminate.
  rewrite (lookup_delete_ne kwargs "init_weights" "reg") by discriminate.
  rewrite lookup_delete_eq, Hl. simpl.
  rewrite (encoder_loop _ _ _ _ Hfs). reflexivity.
Qed.

(** The decoder's loop over the indices [len-1 .. 1] of [d0 :: tl ++ more]
    visits the specs of [tl] last to first. *)
Lemma decoder_loop (iw rg : value) (d0 : gmap string Z)
    (tl : list (gmap string Z)) (fs : list Z) :
  Spec.filters_of tl fs ->
  forall more x,
    for_each
      (fun x i =>
         layer ← index (Spec <$> (d0 :: tl ++ more)) i;
         n_filters ← subscript layer "n_filters";
         Ok (AutoEncoder.unpool cls iw rg n_filters x))
      (Z.of_nat <$> rev (seq 1 (length tl))) x
    = Ok (Spec.extend x (Spec.up_stage (Composable.relu cls) iw rg <$> rev fs)).
Proof.
  intros Hfs. revert fs Hfs.
  induction tl as [|d tl IH] using rev_ind; intros fs Hfs more x.
  - apply Forall2_nil_inv_l in Hfs as ->. simpl. by rewrite extend_nil.
  - apply Forall2_app_inv_l in Hfs as (fs1 & fs2 & Hfs1 & Hd & ->).
    apply Forall2_cons_inv_l in Hd as (n & fs3 & Hn & Hnil & ->).
    apply Forall2_nil_inv_l in Hnil as ->.
    rewrite length_app. simpl length.
    replace (length tl + 1)%nat with (S (length tl)) by lia.
    replace (seq 1 (S (length tl))) with (seq 1 (length tl) ++ [S (length tl)])
      by (symmetry; apply seq_S).
    rewrite !rev_app_distr. simpl rev. simpl app.
    rewrite (fmap_cons Z.of_nat), for_each_cons.
    rewrite (index_nat _ (S (length tl)) (Spec d)).
    2:{ rewrite list_lookup_fmap. simpl.
        rewrite <- app_assoc, lookup_app_r by lia.
        by rewrite Nat.sub_diag. }
    replace (Ok (Spec d) ≫= _) with
      (Ok (AutoEncoder.unpool cls iw rg n x))
      by (simpl; unfold getitem; by rewrite Hn).
    rewrite bind_Ok, <- app_assoc, (IH fs1 Hfs1).
    by rewrite unpool_stage, extend_extend.
Qed.

Lemma decoder_built (x : Keras.tensor) (kwargs : gmap string value)
    (ls : list (gmap string Z)) (fs : list Z) :
  kwargs !! "layers" = Some (VList ls) ->
  Spec.filters_of ls fs ->
  AutoEncoder.decoder cls x kwargs
  = Ok (Spec.extend x
          ((Spec.up_stage (Composable.relu cls) (Composable.init_weights cls)
              (Spec.resolve_static (kwargs !! "reg") (Composable.reg cls))
              <$> rev (drop 1 fs))
           ++ [Spec.up_stage (Composable.relu cls) (Composable.init_weights cls)
                 (Spec.resolve_static (kwargs !! "reg") (Composable.reg cls)) 3])).
Proof.
  intros Hl Hfs. unfold AutoEncoder.decoder, bind_keyword, getitem.
  rewrite (lookup_delete_ne kwargs "init_weights" "layers") by discriminate.
  rewrite (lookup_delete_ne kwargs "init_weights" "reg") by discriminate.
  rewrite lookup_delete_eq, Hl, mbind_Ok. cbv beta.
  unfold len. change (iter (VList ls)) with (Ok (Spec <$> ls)). cbv iota.
  rewrite !mbind_Ok. cbv beta. rewrite length_fmap.
  unfold AutoEncoder.init_weights, AutoEncoder.reg, Spec.resolve_static.
  destruct Hfs as [|d0 n0 tl fs Hd0 Htl].
  - simpl. by rewrite unpool_stage.
  - replace (Z.of_nat (length (d0 :: tl)) - 1) with (Z.of_nat (length tl))
      by (simpl length; lia).
    rewrite range_down.
    pose proof (decoder_loop (Composable.init_weights cls)
                  (Spec.resolve_static (kwargs !! "reg") (Composable.reg cls))
                  d0 tl fs Htl [] x) as Hloop.
    rewrite app_nil_r in Hloop. unfold Spec.resolve_static in Hloop.
    rewrite Hloop, mbind_Ok. simpl drop.
    by rewrite unpool_stage, extend_extend.
Qed.

End Construction.

(** ** Stage structure of the encoder and of the decoder *)
Section Stages.
Import Py.

Lemma lookup_seq_from {A} (pre l : list A) :
  Forall2 (fun i a => (pre ++ l) !! i = Some a) (seq (length pre) (length l)) l.
Proof.
  revert pre. induction l as [|a l IH]; intros pre; [constructor|].
  simpl. constructor.
  - by apply list_lookup_middle.
  - specialize (IH (pre ++ [a])).
    rewrite <- app_assoc, length_app in IH. simpl in IH.
    by replace (length pre + 1)%nat with (S (length pre)) in IH by lia.
Qed.

Lemma Forall2_rev {A B} (P : A -> B -> Prop) (l : list A) (k : list B) :
  Forall2 P l k -> Forall2 P (rev l) (rev k).
Proof. rewrite !rev_alt. apply Forall2_reverse. Qed.

(** C5: for layer specs [ls] with filter counts [fs], [encoder] appends to
    its input exactly one downsampling stage per spec, in the order of the
    specs -- stride-2 3x3 same-padding convolution with that spec's filter
    count, normalization, clamped ReLU -- and nothing else: as many stages as
    there are specs. *)
Theorem encoder_one_stage_per_spec (cls : Composable.attrs) (x : Keras.tensor)
    (kwargs : gmap string value) (ls : list (gmap string Z)) (fs : list Z) :
  kwargs !! "layers" = Some (VList ls) ->
  Spec.filters_of ls fs ->
  (1 <= length ls)%nat ->
  let init := AutoEncoder.init_weights cls in
  let reg := Spec.resolve_static (kwargs !! "reg") (AutoEncoder.reg cls) in
  exists stages : list (list Keras.layer),
    stages = Spec.down_stage (Composable.relu cls) init reg <$> fs /\
    length stages = length ls /\
    AutoEncoder.encoder cls x kwargs = Ok (Spec.extend x stages).
Proof.
  intros Hl Hfs _ init reg. eexists. split; [reflexivity|]. split.
  - rewrite length_fmap. symmetry. by eapply Forall2_length.
  - by apply encoder_built with (ls := ls).
Qed.

Lemma encoder_one_stage_per_spec_witness :
  let kwargs : gmap string value := {[ "layers" := VList AutoEncoder.layers ]} in
  kwargs !! "layers" = Some (VList AutoEncoder.layers) /\
  Spec.filters_of AutoEncoder.layers [64; 32; 16] /\
  (1 <= length AutoEncoder.layers)%nat /\
  let init := AutoEncoder.init_weights Composable.declared in
  let reg :=
    Spec.resolve_static (kwargs !! "reg") (AutoEncoder.reg Composable.declared) in
  exists stages : list (list Keras.layer),
    stages = Spec.down_stage (Composable.relu Composable.declared) init reg
               <$> [64; 32; 16] /\
    length stages = length AutoEncoder.layers /\
    AutoEncoder.encoder Composable.declared (Keras.Input [32; 32; 3]) kwargs
    = Ok (Spec.extend (Keras.Input [32; 32; 3]) stages).
Proof.
  intros kwargs.
  assert (H1 : kwargs !! "layers" = Some (VList AutoEncoder.layers))
    by reflexivity.
  assert (H2 : Spec.filters_of AutoEncoder.layers [64; 32; 16])
    by (repeat constructor).
  assert (H3 : (1 <= length AutoEncoder.layers)%nat) by (simpl; lia).
  split; [exact H1|]. split; [exact H2|]. split; [exact H3|].
  exact (encoder_one_stage_per_spec Composable.declared
           (Keras.Input [32; 32; 3]) kwargs AutoEncoder.layers [64; 32; 16]
           H1 H2 H3).
Defined.

(** C3: for layer specs [ls] of length N >= 1 with filter counts [fs],
    [decoder] walks the indices N-1 down to 1 (index 0 excluded), appends
    for each index one stage -- stride-2 3x3 same-padding transposed
    convolution with that index's filter count, normalization, clamped ReLU
    -- and then exactly one final stage of the same shape with 3 output
    channels: N-1 mirrored stages and 1 fixed stage, N in total. *)
Theorem decoder_mirrored_then_fixed (cls : Composable.attrs) (x : Keras.tensor)
    (kwargs : gmap string value) (ls : list (gmap string Z)) (fs : list Z) :
  kwargs !! "layers" = Some (VList ls) ->
  Spec.filters_of ls fs ->
  (1 <= length ls)%nat ->
  let init := AutoEncoder.init_weights cls in
  let reg := Spec.resolve_static (kwargs !! "reg") (AutoEncoder.reg cls) in
  exists mirrored : list (list Keras.layer),
    let indices := rev (seq 1 (length ls - 1)) in
    range (Z.of_nat (length ls) - 1) 0 (-1) = Z.of_nat <$> indices /\
    Forall2 (fun i stage =>
               exists n, fs !! i = Some n /\
                         stage = Spec.up_stage (Composable.relu cls) init reg n)
            indices mirrored /\
    length mirrored = (length ls - 1)%nat /\
    length (mirrored ++ [Spec.up_stage (Composable.relu cls) init reg 3])
    = length ls /\
    AutoEncoder.decoder cls x kwargs
    = Ok (Spec.extend x
            (mirrored ++ [Spec.up_stage (Composable.relu cls) init reg 3])).
Proof.
  intros Hl Hfs Hlen init reg.
  pose proof (Forall2_length _ _ _ Hfs) as Hlfs.
  exists (Spec.up_stage (Composable.relu cls) init reg <$> rev (drop 1 fs)).
  cbv zeta. repeat split.
  - replace (Z.of_nat (length ls) - 1) with (Z.of_nat (length ls - 1)) by lia.
    apply range_down.
  - apply Forall2_fmap_r. destruct fs as [|f0 tl]; [simpl in *; lia|].
    simpl drop. apply Forall2_rev.
    replace (length ls - 1)%nat with (length tl) by (simpl in *; lia).
    eapply Forall2_impl; [apply (lookup_seq_from [f0] tl)|].
    intros i n Hi. simpl in Hi. eauto.
  - rewrite length_fmap, length_rev, length_drop. lia.
  - rewrite length_app, length_fmap, length_rev, length_drop. simpl. lia.
  - by apply decoder_built with (ls := ls).
Qed.

Lemma decoder_mirrored_then_fixed_witness :
  let kwargs : gmap string value := {[ "layers" := VList AutoEncoder.layers ]} in
  let cls := Composable.declared in
  let x := Keras.Input [4; 4; 16] in
  kwargs !! "layers" = Some (VList AutoEncoder.layers) /\
  Spec.filters_of AutoEncoder.layers [64; 32; 16] /\
  (1 <= length AutoEncoder.layers)%nat /\
  let init := AutoEncoder.init_weights cls in
  let reg := Spec.resolve_static (kwargs !! "reg") (AutoEncoder.reg cls) in
  exists mirrored : list (list Keras.layer),
    let indices := rev (seq 1 (length AutoEncoder.layers - 1)) in
    range (Z.of_nat (length AutoEncoder.layers) - 1) 0 (-1)
    = Z.of_nat <$> indices /\
    Forall2 (fun i stage =>
               exists n, [64; 32; 16] !! i = Some n /\
                         stage = Spec.up_stage (Composable.relu cls) init reg n)
            indices mirrored /\
    length mirrored = (length AutoEncoder.layers - 1)%nat /\
    length (mirrored ++ [Spec.up_stage (Composable.relu cls) init reg 3])
    = length AutoEncoder.layers /\
    AutoEncoder.decoder cls x kwargs
    = Ok (Spec.extend x
            (mirrored ++ [Spec.up_stage (Composable.relu cls) init reg 3])).
Proof.
  intros kwargs cls x.
  assert (H1 : kwargs !! "layers" = Some (VList AutoEncoder.layers))
    by reflexivity.
  assert (H2 : Spec.filters_of AutoEncoder.layers [64; 32; 16])
    by (repeat constructor).
  assert (H3 : (1 <= length AutoEncoder.layers)%nat) by (simpl; lia).
  split; [exact H1|]. split; [exact H2|]. split; [exact H3|].
  exact (decoder_mirrored_then_fixed cls x kwargs AutoEncoder.layers
           [64; 32; 16] H1 H2 H3).
Defined.

End Stages.

(** ** Weight arrays of a graph *)
Section Weights.
Import Py.

Lemma load_weights (ls : list Keras.built) (ws : list Keras.array) :
  length ws = length (concat (Keras.variables <$> ls)) ->
  concat (Keras.variables <$> Keras.load ls ws) = ws.
Proof.
  revert ws. induction ls as [|b ls IH]; intros ws Hlen.
  - simpl in *. by destruct ws.
  - rewrite fmap_cons in Hlen. simpl concat in Hlen. rewrite length_app in Hlen.
    simpl. rewrite IH.
    + apply take_drop.
    + rewrite length_drop. lia.
Qed.

Lemma load_config (ls : list Keras.built) (ws : list Keras.array) :
  Keras.config <$> Keras.load ls ws = Keras.config <$> ls.
Proof.
  revert ws. induction ls as [|b ls IH]; intros ws; [done|].
  simpl. by rewrite IH.
Qed.

(** After a successful [set_weights], [get_weights] returns the loaded
    arrays, and the layer configurations are those of before. *)
Lemma get_set_weights (m m' : Keras.model) (ws : list Keras.array) :
  Keras.set_weights m ws = Ok m' ->
  Keras.get_weights m' = ws /\
  Keras.config <$> Keras.layers m' = Keras.config <$> Keras.layers m.
Proof.
  unfold Keras.set_weights. case_decide as Hlen; [|discriminate].
  intros [= <-]. unfold Keras.get_weights. simpl. split.
  - by apply load_weights.
  - apply load_config.
Qed.

(** A graph made of stages of 6 arrays each owns 6 arrays per stage. *)
Lemma length_stage_weights (stages : list (list Keras.layer)) :
  Forall (fun st => length (concat (Keras.initial_variables <$> st)) = 6%nat)
         stages ->
  length (concat (Keras.variables <$> (Keras.instantiate <$> concat stages)))
  = (6 * length stages)%nat.
Proof.
  induction 1 as [|st stages Hst _ IH]; [done|].
  simpl concat. rewrite !fmap_app, concat_app, length_app, IH.
  rewrite <- list_fmap_compose.
  change (Keras.variables ∘ Keras.instantiate) with Keras.initial_variables.
  rewrite Hst. simpl length. lia.
Qed.

Lemma down_stages_six (clamp : option Q) (init reg : value) (fs : list Z) :
  Forall (fun st => length (concat (Keras.initial_variables <$> st)) = 6%nat)
         (Spec.down_stage clamp init reg <$> fs).
Proof. apply Forall_fmap, Forall_forall. by intros n _. Qed.

Lemma up_stages_six (clamp : option Q) (init reg : value) (fs : list Z) :
  Forall (fun st => length (concat (Keras.initial_variables <$> st)) = 6%nat)
         (Spec.up_stage clamp init reg <$> fs).
Proof. apply Forall_fmap, Forall_forall. by intros n _. Qed.

Lemma same_architecture_weights (m m' : Keras.model) :
  Spec.same_architecture m m' ->
  length (Keras.get_weights m) = length (Keras.get_weights m').
Proof.
  intros [_ Hl]. unfold Keras.get_weights.
  induction Hl as [|b b' l l' [_ Hb] _ IH]; [done|].
  rewrite !fmap_cons. simpl concat. rewrite !length_app. lia.
Qed.

Lemma input_model_weights (shape : list Z) (stages : list (list Keras.layer)) :
  Keras.get_weights
    (Keras.Model (Keras.Input shape) (Spec.extend (Keras.Input shape) stages))
  = concat (Keras.variables <$> (Keras.instantiate <$> concat stages)).
Proof. reflexivity. Qed.

(** The encoder graph over [fs] expects 6 arrays per filter count. *)
Lemma encoder_weight_count (shape : list Z) (clamp : option Q)
    (init reg : value) (fs : list Z) :
  length (Keras.get_weights
            (Keras.Model (Keras.Input shape)
               (Spec.extend (Keras.Input shape)
                  (Spec.down_stage clamp init reg <$> fs))))
  = (6 * length fs)%nat.
Proof.
  rewrite input_model_weights.
  rewrite (length_stage_weights _ (down_stages_six _ _ _ fs)).
  by rewrite length_fmap.
Qed.

(** The full graph owns at least the encoder's arrays. *)
Lemma autoencoder_weight_count (shape : list Z) (clamp : option Q)
    (init reg : value) (fs : list Z) :
  (6 * length fs
   <= length (Keras.get_weights
                (Keras.Model (Keras.Input shape)
                   (Spec.extend (Keras.Input shape)
                      (Spec.autoencoder_stages clamp init reg fs)))))%nat.
Proof.
  rewrite input_model_weights. unfold Spec.autoencoder_stages.
  rewrite concat_app, !fmap_app, concat_app, length_app.
  rewrite (length_stage_weights _ (down_stages_six _ _ _ fs)).
  rewrite length_fmap. lia.
Qed.

(** The heap reference handed out for a new object is not in use. *)
Lemma fresh_unused (h : gmap nat Keras.model) : h !! fresh (dom h) = None.
Proof. apply not_elem_of_dom, is_fresh. Qed.

End Weights.

(** ** The constructor and [extract], run on well-formed layer specs *)
Section Runs.
Import Py.
Variable cls : Composable.attrs.

Lemma singleton_layers_lookup (v : value) :
  ({[ "layers" := v ]} : gmap string value) !! "layers" = Some v.
Proof. apply lookup_singleton_eq. Qed.

Lemma singleton_layers_reg (v : value) :
  ({[ "layers" := v ]} : gmap string value) !! "reg" = None.
Proof. by apply lookup_singleton_ne. Qed.

Lemma init_built (ls : list (gmap string Z)) (fs : list Z) (shape : list Z)
    (iw rg : value) (h : gmap nat Keras.model) :
  Spec.filters_of ls fs ->
  AutoEncoder.__init__ cls (VList ls) shape iw rg h
  = (Ok {| AutoEncoder.base :=
             Composable.set__model (Composable.__init__ iw rg None)
               (Some (fresh (dom h)));
           AutoEncoder.self_layers := VList ls;
           AutoEncoder.input_shape := shape |},
     <[ fresh (dom h) :=
          Keras.Model (Keras.Input shape)
            (Spec.extend (Keras.Input shape)
               (Spec.autoencoder_stages (Composable.relu cls)
                  (Composable.init_weights cls) (Composable.reg cls) fs)) ]> h).
Proof.
  intros Hfs. unfold AutoEncoder.__init__.
  rewrite (encoder_built cls _ _ ls fs (singleton_layers_lookup _) Hfs).
  rewrite (decoder_built cls _ _ ls fs (singleton_layers_lookup _) Hfs).
  rewrite singleton_layers_reg. unfold Spec.resolve_static.
  by rewrite extend_extend.
Qed.

Lemma extract_run (self : AutoEncoder.object) (h : gmap nat Keras.model)
    (m : nat) (model : Keras.model) (ls : list (gmap string Z)) (fs : list Z) :
  Composable._model (AutoEncoder.base self) = Some m ->
  h !! m = Some model ->
  AutoEncoder.self_layers self = VList ls ->
  Spec.filters_of ls fs ->
  let inputs := Keras.Input (AutoEncoder.input_shape self) in
  let encoder :=
    Keras.Model inputs
      (Spec.extend inputs
         (Spec.down_stage (Composable.relu cls) (Composable.init_weights cls)
            (Composable.reg cls) <$> fs)) in
  AutoEncoder.extract cls self h
  = match Keras.set_weights encoder
            (take (6 * length ls) (Keras.get_weights model)) with
    | Raise ex => (Raise ex, <[ fresh (dom h) := encoder ]> h)
    | Ok loaded => (Ok (fresh (dom h)), <[ fresh (dom h) := loaded ]> h)
    end.
Proof.
  intros Hm Hh Hls Hfs inputs encoder. unfold AutoEncoder.extract.
  rewrite Hm, Hh, Hls. unfold len. simpl iter. cbv iota.
  rewrite length_fmap.
  rewrite (encoder_built cls _ _ ls fs (singleton_layers_lookup _) Hfs).
  rewrite singleton_layers_reg. unfold Spec.resolve_static.
  replace (6 * Z.of_nat (length ls)) with (Z.of_nat (6 * length ls)) by lia.
  by rewrite slice_to_take.
Qed.

End Runs.

(** ** [extract] and [compile] *)
Section ExtractCompile.
Import Py.

(** C4: an autoencoder built from layer specs [ls] (N of them), whatever
    numbers its weight arrays hold by now, yields on [extract] a new encoder
    model whose weights are exactly the first 6 x N arrays of the full
    model's weight sequence, in order; there are 6 x N of them. *)
Theorem extract_loads_first_6N_weights (cls : Composable.attrs)
    (ls : list (gmap string Z)) (fs : list Z) (shape : list Z)
    (iw rg : value) (h0 : gmap nat Keras.model) :
  Spec.filters_of ls fs ->
  (1 <= length ls)%nat ->
  exists (self : AutoEncoder.object) (m : nat) (built : Keras.model),
    AutoEncoder.__init__ cls (VList ls) shape iw rg h0
    = (Ok self, <[ m := built ]> h0) /\
    Composable._model (AutoEncoder.base self) = Some m /\
    forall (h : gmap nat Keras.model) (model : Keras.model),
      h !! m = Some model ->
      Spec.same_architecture model built ->
      exists (e : nat) (encoder : Keras.model),
        AutoEncoder.extract cls self h = (Ok e, <[ e := encoder ]> h) /\
        Keras.get_weights encoder
        = take (6 * length ls) (Keras.get_weights model) /\
        length (Keras.get_weights encoder) = (6 * length ls)%nat.
Proof.
  intros Hfs _. eexists _, _, _.
  split; [by apply init_built with (fs := fs)|]. split; [reflexivity|].
  intros h model Hh Harch.
  pose proof (Forall2_length _ _ _ Hfs) as Hlen.
  assert (Hfull : (6 * length ls <= length (Keras.get_weights model))%nat).
  { rewrite (same_architecture_weights _ _ Harch), Hlen.
    apply autoencoder_weight_count. }
  erewrite (extract_run cls _ h _ model ls fs); [|done..].
  cbv zeta. unfold Keras.set_weights.
  assert (Hexp :
    length (take (6 * length ls) (Keras.get_weights model))
    = length (Keras.get_weights
                (Keras.Model (Keras.Input shape)
                   (Spec.extend (Keras.Input shape)
                      (Spec.down_stage (Composable.relu cls)
                         (Composable.init_weights cls) (Composable.reg cls)
                         <$> fs))))).
  { rewrite length_take_le by exact Hfull.
    by rewrite encoder_weight_count, Hlen. }
  simpl AutoEncoder.input_shape. rewrite decide_True by exact Hexp.
  eexists _, _. split; [reflexivity|].
  match goal with
  | |- Keras.get_weights ?enc = ?ws /\ _ =>
      destruct (get_set_weights
                  (Keras.Model (Keras.Input shape)
                     (Spec.extend (Keras.Input shape)
                        (Spec.down_stage (Composable.relu cls)
                           (Composable.init_weights cls) (Composable.reg cls)
                           <$> fs))) enc ws) as [Hget _]
  end.
  { unfold Keras.set_weights. by rewrite decide_True by exact Hexp. }
  rewrite Hget. split; [reflexivity|]. by apply length_take_le.
Qed.

Lemma extract_loads_first_6N_weights_witness :
  Spec.filters_of AutoEncoder.layers [64; 32; 16] /\
  (1 <= length AutoEncoder.layers)%nat /\
  exists (self : AutoEncoder.object) (m : nat) (built : Keras.model),
    AutoEncoder.__init__ Composable.declared (VList AutoEncoder.layers)
      [32; 32; 3] (VStr "he_normal") VNone ∅
    = (Ok self, <[ m := built ]> ∅) /\
    Composable._model (AutoEncoder.base self) = Some m /\
    forall (h : gmap nat Keras.model) (model : Keras.model),
      h !! m = Some model ->
      Spec.same_architecture model built ->
      exists (e : nat) (encoder : Keras.model),
        AutoEncoder.extract Composable.declared self h
        = (Ok e, <[ e := encoder ]> h) /\
        Keras.get_weights encoder
        = take (6 * length AutoEncoder.layers) (Keras.get_weights model) /\
        length (Keras.get_weights encoder)
        = (6 * length AutoEncoder.layers)%nat.
Proof.
  assert (H1 : Spec.filters_of AutoEncoder.layers [64; 32; 16])
    by (repeat constructor).
  assert (H2 : (1 <= length AutoEncoder.layers)%nat) by (simpl; lia).
  split; [exact H1|]. split; [exact H2|].
  exact (extract_loads_first_6N_weights Composable.declared
           AutoEncoder.layers [64; 32; 16] [32; 32; 3] (VStr "he_normal")
           VNone ∅ H1 H2).
Defined.

(** C6: when the number of extracted arrays (the first 6 x len(layers)
    entries of the full model's weights) differs from the number of arrays
    the newly built encoder graph expects, [extract] fails with
    [ShapeMismatchError]. *)
Theorem extract_count_mismatch_raises (cls : Composable.attrs)
    (self : AutoEncoder.object) (h : gmap nat Keras.model) (m : nat)
    (model : Keras.model) (n : Z) (outputs : Keras.tensor) :
  Composable._model (AutoEncoder.base self) = Some m ->
  h !! m = Some model ->
  len (AutoEncoder.self_layers self) = Ok n ->
  AutoEncoder.encoder cls (Keras.Input (AutoEncoder.input_shape self))
    {[ "layers" := AutoEncoder.self_layers self ]} = Ok outputs ->
  length (slice_to (Keras.get_weights model) (6 * n))
  <> length (Keras.get_weights
               (Keras.Model (Keras.Input (AutoEncoder.input_shape self))
                  outputs)) ->
  (AutoEncoder.extract cls self h).1 = Raise ShapeMismatchError.
Proof.
  intros Hm Hh Hn Henc Hne. unfold AutoEncoder.extract.
  rewrite Hm, Hh, Hn, Henc. unfold Keras.set_weights.
  by rewrite decide_False by exact Hne.
Qed.

Lemma extract_count_mismatch_raises_witness :
  let cls := Composable.declared in
  let self := Example.default_self in
  let h := Example.single_run.2 in
  let outputs :=
    Spec.extend (Keras.Input [32; 32; 3])
      (Spec.down_stage None (VStr "he_normal") (VReg (l2 (1 # 1000)))
         <$> [64; 32; 16]) in
  Composable._model (AutoEncoder.base self) = Some 0%nat /\
  h !! 0%nat = Some Example.single_model /\
  len (AutoEncoder.self_layers self) = Ok 3 /\
  AutoEncoder.encoder cls (Keras.Input (AutoEncoder.input_shape self))
    {[ "layers" := AutoEncoder.self_layers self ]} = Ok outputs /\
  length (slice_to (Keras.get_weights Example.single_model) (6 * 3))
  <> length (Keras.get_weights
               (Keras.Model (Keras.Input (AutoEncoder.input_shape self))
                  outputs)) /\
  (AutoEncoder.extract cls self h).1 = Raise ShapeMismatchError.
Proof.
  intros cls self h outputs.
  assert (H1 : Composable._model (AutoEncoder.base self) = Some 0%nat)
    by reflexivity.
  assert (H2 : h !! 0%nat = Some Example.single_model) by reflexivity.
  assert (H3 : len (AutoEncoder.self_layers self) = Ok 3) by reflexivity.
  assert (H4 : AutoEncoder.encoder cls
                 (Keras.Input (AutoEncoder.input_shape self))
                 {[ "layers" := AutoEncoder.self_layers self ]} = Ok outputs)
    by reflexivity.
  assert (H5 : length (slice_to (Keras.get_weights Example.single_model) (6 * 3))
               <> length (Keras.get_weights
                            (Keras.Model
                               (Keras.Input (AutoEncoder.input_shape self))
                               outputs)))
    by (vm_compute; lia).
  split; [exact H1|]. split; [exact H2|]. split; [exact H3|].
  split; [exact H4|]. split; [exact H5|].
  exact (extract_count_mismatch_raises cls self h 0%nat Example.single_model 3
           outputs H1 H2 H3 H4 H5).
Defined.

(** Whatever [extract] does, it leaves alone the object [self._model]
    refers to and every other object that existed before the call; a
    reference it returns was unused before. *)
Lemma extract_leaves_original_untouched (cls : Composable.attrs)
    (self : AutoEncoder.object) (h : gmap nat Keras.model) (m : nat)
    (model : Keras.model) :
  Composable._model (AutoEncoder.base self) = Some m ->
  h !! m = Some model ->
  let r := AutoEncoder.extract cls self h in
  r.2 !! m = Some model /\
  (forall (l : nat) (other : Keras.model),
     h !! l = Some other -> r.2 !! l = Some other) /\
  (forall e : nat,
     r.1 = Ok e -> h !! e = None /\ e <> m /\ is_Some (r.2 !! e)).
Proof.
  intros Hm Hh r.
  assert (Hframe : forall (l : nat) (other : Keras.model),
             h !! l = Some other -> r.2 !! l = Some other).
  { intros l other Hl. subst r. unfold AutoEncoder.extract.
    rewrite Hm, Hh.
    destruct (len (AutoEncoder.self_layers self)) as [n|]; [|exact Hl].
    destruct (AutoEncoder.encoder cls _ _) as [outputs|]; [|exact Hl].
    assert (fresh (dom h) <> l) as Hne
      by (intros <-; rewrite fresh_unused in Hl; discriminate).
    destruct (Keras.set_weights _ _); simpl;
      by rewrite lookup_insert_ne by exact Hne. }
  split; [by apply Hframe|]. split; [exact Hframe|].
  intros e. subst r. unfold AutoEncoder.extract. rewrite Hm, Hh.
  destruct (len (AutoEncoder.self_layers self)) as [n|]; [|discriminate].
  destruct (AutoEncoder.encoder cls _ _) as [outputs|]; [|discriminate].
  destruct (Keras.set_weights _ _); simpl; [|discriminate].
  intros [= <-]. split; [apply fresh_unused|]. split.
  - intros Heq. rewrite <- Heq, fresh_unused in Hh. discriminate.
  - rewrite lookup_insert_eq. by eexists.
Qed.

(** C8: compiling twice, possibly with different optimizers, leaves the
    model with one training configuration, that of the second call (mse
    loss, the second optimizer, the accuracy metric): the second call
    replaces what the first stored, and the heap is the one a single call
    with the second optimizer gives. *)
Theorem compile_twice_keeps_latest (self : AutoEncoder.object)
    (h : gmap nat Keras.model) (m : nat) (model : Keras.model)
    (first second : value) :
  Composable._model (AutoEncoder.base self) = Some m ->
  h !! m = Some model ->
  let h1 := (AutoEncoder.compile self first h).2 in
  let r := AutoEncoder.compile self second h1 in
  r.1 = Ok tt /\
  r.2 !! m
  = Some {| Keras.inputs := Keras.inputs model;
            Keras.layers := Keras.layers model;
            Keras.compiled :=
              Some {| Keras.loss := "mse";
                      Keras.optimizer := second;
                      Keras.metrics := ["accuracy"] |} |} /\
  r.2 = (AutoEncoder.compile self second h).2.
Proof.
  intros Hm Hh h1 r. subst r h1. unfold AutoEncoder.compile.
  rewrite Hm, Hh. simpl. rewrite lookup_insert_eq. simpl.
  split; [reflexivity|]. split.
  - by rewrite lookup_insert_eq.
  - by rewrite insert_insert_eq.
Qed.

Lemma compile_twice_keeps_latest_witness :
  let self := Example.default_self in
  let h := Example.default_run.2 in
  let model := Example.default_model in
  Composable._model (AutoEncoder.base self) = Some 0%nat /\
  h !! 0%nat = Some model /\
  let h1 := (AutoEncoder.compile self (VStr "adam") h).2 in
  let r := AutoEncoder.compile self (VStr "sgd") h1 in
  r.1 = Ok tt /\
  r.2 !! 0%nat
  = Some {| Keras.inputs := Keras.inputs model;
            Keras.layers := Keras.layers model;
            Keras.compiled :=
              Some {| Keras.loss := "mse";
                      Keras.optimizer := VStr "sgd";
                      Keras.metrics := ["accuracy"] |} |} /\
  r.2 = (AutoEncoder.compile self (VStr "sgd") h).2.
Proof.
  intros self h model.
  assert (H1 : Composable._model (AutoEncoder.base self) = Some 0%nat)
    by reflexivity.
  assert (H2 : h !! 0%nat = Some model) by reflexivity.
  split; [exact H1|]. split; [exact H2|].
  exact (compile_twice_keeps_latest self h 0%nat model (VStr "adam")
           (VStr "sgd") H1 H2).
Defined.

End ExtractCompile.

(** ** Which initializer and regularizer reach the layers *)
Section Resolution.
Import Py.
Variable cls : Composable.attrs.

Lemma for_each_appends {A} (P : Keras.built -> Prop)
    (body : Keras.tensor -> A -> result Keras.tensor) :
  (forall s a s', body s a = Ok s' ->
     exists new, Keras.history s' = Keras.history s ++ new /\ Forall P new) ->
  forall xs x t,
    for_each body xs x = Ok t ->
    exists new, Keras.history t = Keras.history x ++ new /\ Forall P new.
Proof.
  intros Hbody. induction xs as [|a xs IH]; intros x t Hrun.
  - injection Hrun as <-. exists []. by rewrite app_nil_r.
  - rewrite for_each_cons in Hrun.
    destruct (body x a) as [s'|] eqn:Hstep; [|discriminate].
    rewrite bind_Ok in Hrun.
    destruct (Hbody _ _ _ Hstep) as (new1 & H1 & HP1).
    destruct (IH _ _ Hrun) as (new2 & H2 & HP2).
    exists (new1 ++ new2). split.
    + by rewrite H2, H1, app_assoc.
    + by apply Forall_app.
Qed.

Lemma stage_settings (clamp : option Q) (iw rg : value) (n : Z) (b : Keras.built) :
  b ∈ Keras.instantiate <$> Spec.down_stage clamp iw rg n
  \/ b ∈ Keras.instantiate <$> Spec.up_stage clamp iw rg n ->
  Spec.initializer_is iw b /\ Spec.regularizer_is rg b.
Proof.
  unfold Spec.initializer_is, Spec.regularizer_is, Spec.down_stage,
    Spec.up_stage.
  rewrite !fmap_cons, !elem_of_cons, !fmap_nil, !elem_of_nil.
  intros [[->|[->|[->|[]]]]|[->|[->|[->|[]]]]]; split; simpl; congruence.
Qed.

Lemma pool_appends (iw rg : value) (x : Keras.tensor) (it : item)
    (t : Keras.tensor) :
  AutoEncoder.pool cls iw rg x it = Ok t ->
  exists new,
    Keras.history t = Keras.history x ++ new /\
    Forall (fun b => Spec.initializer_is iw b /\ Spec.regularizer_is rg b) new.
Proof.
  destruct it as [d|c]; [|discriminate].
  destruct (d !! "n_filters") as [n|] eqn:Hd.
  - rewrite (pool_stage cls _ _ _ _ _ Hd). intros [= <-].
    eexists. split; [reflexivity|].
    apply Forall_forall. intros b Hb. simpl concat in Hb.
    apply (stage_settings (Composable.relu cls) iw rg n). left. exact Hb.
  - unfold AutoEncoder.pool, subscript, getitem. rewrite Hd. discriminate.
Qed.

Lemma unpool_appends (iw rg : value) (n : Z) (x : Keras.tensor) :
  exists new,
    Keras.history (AutoEncoder.unpool cls iw rg n x) = Keras.history x ++ new /\
    Forall (fun b => Spec.initializer_is iw b /\ Spec.regularizer_is rg b) new.
Proof.
  rewrite unpool_stage. eexists. split; [reflexivity|].
  apply Forall_forall. intros b Hb. simpl concat in Hb.
  apply (stage_settings (Composable.relu cls) iw rg n). right. exact Hb.
Qed.

Lemma encoder_appends (x t : Keras.tensor) (kwargs : gmap string value) :
  AutoEncoder.encoder cls x kwargs = Ok t ->
  exists new,
    Keras.history t = Keras.history x ++ new /\
    Forall (fun b =>
              Spec.initializer_is (AutoEncoder.init_weights cls) b /\
              Spec.regularizer_is
                (Spec.resolve_static (kwargs !! "reg") (AutoEncoder.reg cls)) b)
           new.
Proof.
  unfold AutoEncoder.encoder, bind_keyword.
  rewrite (lookup_delete_ne kwargs "init_weights" "reg") by discriminate.
  rewrite lookup_delete_eq.
  destruct (getitem _ "layers") as [layers|]; [|discriminate].
  rewrite mbind_Ok.
  destruct (iter layers) as [items|]; [|discriminate].
  rewrite mbind_Ok.
  apply for_each_appends. intros s a s'. apply pool_appends.
Qed.

Lemma decoder_appends (x t : Keras.tensor) (kwargs : gmap string value) :
  AutoEncoder.decoder cls x kwargs = Ok t ->
  exists new,
    Keras.history t = Keras.history x ++ new /\
    Forall (fun b =>
              Spec.initializer_is (AutoEncoder.init_weights cls) b /\
              Spec.regularizer_is
                (Spec.resolve_static (kwargs !! "reg") (AutoEncoder.reg cls)) b)
           new.
Proof.
  unfold AutoEncoder.decoder, bind_keyword.
  rewrite (lookup_delete_ne kwargs "init_weights" "reg") by discriminate.
  rewrite lookup_delete_eq.
  destruct (getitem _ "layers") as [layers|]; [|discriminate].
  rewrite mbind_Ok.
  destruct (len layers) as [n|]; [|discriminate]. rewrite mbind_Ok.
  destruct (iter layers) as [items|]; [|discriminate]. rewrite mbind_Ok.
  match goal with
  | |- context [for_each ?body ?xs x] =>
      destruct (for_each body xs x) as [y|] eqn:Hloop; [|discriminate]
  end.
  rewrite mbind_Ok. intros [= <-].
  eapply for_each_appends in Hloop as (new1 & H1 & HP1).
  - destruct (unpool_appends (AutoEncoder.init_weights cls)
                (Spec.resolve_static (kwargs !! "reg") (AutoEncoder.reg cls))
                3 y) as (new2 & H2 & HP2).
    exists (new1 ++ new2). split.
    + unfold Spec.resolve_static in H2. by rewrite H2, H1, app_assoc.
    + apply Forall_app. split; [exact HP1|exact HP2].
  - intros s i s' Hstep. simpl in Hstep.
    destruct (index items i) as [layer|]; [|discriminate].
    rewrite mbind_Ok in Hstep.
    destruct (subscript layer "n_filters") as [k|]; [|discriminate].
    rewrite mbind_Ok in Hstep. injection Hstep as <-.
    apply unpool_appends.
Qed.

End Resolution.

(** ** The activation helper *)
Section Activation.
Import Py.

Lemma relu_unbounded (v : Q) :
  ((0 <= v -> Keras.relu None v == v) /\ (v < 0 -> Keras.relu None v == 0))%Q.
Proof.
  unfold Keras.relu.
  destruct (Q.max_spec v 0) as [[Hlt ->]|[Hle ->]]; split; intros; lra.
Qed.

Lemma relu_clamped (m v : Q) :
  (0 <= m -> Keras.relu (Some m) v == Qmin (Qmax 0 v) m)%Q.
Proof.
  intros Hm. unfold Keras.relu.
  destruct (Q.max_spec v 0) as [[H1 E1]|[H1 E1]];
  destruct (Q.max_spec 0 v) as [[H2 E2]|[H2 E2]];
  destruct (Q.min_spec (Qmax v 0) m) as [[H3 E3]|[H3 E3]];
  destruct (Q.min_spec (Qmax 0 v) m) as [[H4 E4]|[H4 E4]];
  destruct (Q.max_spec (Qmin (Qmax v 0) m) 0) as [[H5 E5]|[H5 E5]];
  lra.
Qed.

(** The activation helper appends a ReLU layer whose maximum is the class
    attribute [relu].  When that maximum [m] is set the layer computes the
    rectifier clamped at [m], min(max(0, v), m); when it is unset the layer
    is the plain rectifier: the identity on non-negative inputs, zero on
    negative ones, with no upper bound on its outputs. *)
Lemma ReLU_clamped_when_set_else_unbounded (cls : Composable.attrs)
    (x : Keras.tensor) :
  Keras.history (Composable.ReLU cls x)
  = Keras.history x
    ++ [{| Keras.config := Keras.ReLU (Composable.relu cls);
           Keras.variables := [] |}] /\
  (forall m v : Q,
     Composable.relu cls = Some m -> (0 <= m)%Q ->
     (Keras.relu (Composable.relu cls) v == Qmin (Qmax 0 v) m)%Q) /\
  (Composable.relu cls = None ->
   (forall v : Q,
      ((0 <= v -> Keras.relu (Composable.relu cls) v == v) /\
       (v < 0 -> Keras.relu (Composable.relu cls) v == 0))%Q) /\
   (forall bound : Q,
      exists v : Q, (bound < Keras.relu (Composable.relu cls) v)%Q)).
Proof.
  split; [reflexivity|]. split.
  - intros m v -> Hm. by apply relu_clamped.
  - intros ->. split; [apply relu_unbounded|].
    intros bound. exists (Qmax 0 bound + 1)%Q.
    destruct (relu_unbounded (Qmax 0 bound + 1)) as [Hpos _].
    destruct (Q.max_spec 0 bound) as [[H E]|[H E]];
      rewrite Hpos; lra.
Qed.

End Activation.

(** ** Override precedence and validation *)
Section Precedence.
Import Py.

(** C7: in [encoder] and [decoder] the keyword [init_weights] is a declared
    parameter, so it never reaches the [**metaparameters] dictionary; the
    fallback branch always runs, and every layer built takes the class-level
    [AutoEncoder.init_weights] as kernel initializer.  A call gives the same
    result with and without a caller-supplied [init_weights]. *)
Theorem caller_init_weights_never_applied (cls : Composable.attrs)
    (x : Keras.tensor) (kwargs : gmap string value) :
  (bind_keyword "init_weights" VNone kwargs).2 !! "init_weights" = None /\
  AutoEncoder.encoder cls x kwargs
  = AutoEncoder.encoder cls x (delete "init_weights" kwargs) /\
  AutoEncoder.decoder cls x kwargs
  = AutoEncoder.decoder cls x (delete "init_weights" kwargs) /\
  (forall t, AutoEncoder.encoder cls x kwargs = Ok t ->
     exists new,
       Keras.history t = Keras.history x ++ new /\
       Forall (Spec.initializer_is (AutoEncoder.init_weights cls)) new) /\
  (forall t, AutoEncoder.decoder cls x kwargs = Ok t ->
     exists new,
       Keras.history t = Keras.history x ++ new /\
       Forall (Spec.initializer_is (AutoEncoder.init_weights cls)) new).
Proof.
  split; [apply lookup_delete_eq|].
  split; [unfold AutoEncoder.encoder, bind_keyword;
          by rewrite delete_delete_eq|].
  split; [unfold AutoEncoder.decoder, bind_keyword;
          by rewrite delete_delete_eq|].
  split; intros t Hrun.
  - destruct (encoder_appends cls _ _ _ Hrun) as (new & Hnew & HP).
    exists new. split; [exact Hnew|].
    eapply Forall_impl; [exact HP|]. by intros b [Hb _].
  - destruct (decoder_appends cls _ _ _ Hrun) as (new & Hnew & HP).
    exists new. split; [exact Hnew|].
    eapply Forall_impl; [exact HP|]. by intros b [Hb _].
Qed.

(** The same, on a call that passes [init_weights='glorot_uniform']. *)
Lemma caller_init_weights_never_applied_witness :
  let kwargs : gmap string value :=
    <[ "init_weights" := VStr "glorot_uniform" ]>
      {[ "layers" := VList AutoEncoder.layers ]} in
  let x := Keras.Input [32; 32; 3] in
  let t :=
    Spec.extend x
      (Spec.down_stage None (VStr "he_normal") (VReg (l2 (1 # 1000)))
         <$> [64; 32; 16]) in
  AutoEncoder.encoder Composable.declared x kwargs = Ok t /\
  exists new,
    Keras.history t = Keras.history x ++ new /\
    Forall (Spec.initializer_is (VStr "he_normal")) new.
Proof.
  intros kwargs x t.
  assert (H1 : AutoEncoder.encoder Composable.declared x kwargs = Ok t)
    by reflexivity.
  split; [exact H1|].
  exact (proj1 (proj2 (proj2 (proj2
           (caller_init_weights_never_applied Composable.declared x kwargs))))
           t H1).
Defined.

(** The static helpers [Dense], [Conv2D] and [Conv2DTranspose] give the
    layer the call-site [init_weights] and [reg] when supplied and the
    class-level values otherwise; the layers [encoder] and [decoder] build
    take [reg] the same way. *)
Lemma static_helpers_call_site_then_class (cls : Composable.attrs)
    (x : Keras.tensor) (n : Z) (kernel_size strides : Keras.dims)
    (padding : string) (activation : value) (use_bias : bool)
    (hyperparameters : gmap string value) :
  let init :=
    Spec.resolve_static (hyperparameters !! "init_weights")
      (Composable.init_weights cls) in
  let reg :=
    Spec.resolve_static (hyperparameters !! "reg") (Composable.reg cls) in
  Composable.Dense cls x n activation use_bias hyperparameters
  = Keras.call (Keras.Dense n activation use_bias init reg) x /\
  Composable.Conv2D cls x n kernel_size strides padding activation use_bias
    hyperparameters
  = Keras.call (Keras.Conv2D n kernel_size strides padding activation use_bias
                  init reg) x /\
  Composable.Conv2DTranspose cls x n kernel_size strides padding activation
    use_bias hyperparameters
  = Keras.call (Keras.Conv2DTranspose n kernel_size strides padding activation
                  use_bias init reg) x /\
  (forall t, AutoEncoder.encoder cls x hyperparameters = Ok t ->
     exists new,
       Keras.history t = Keras.history x ++ new /\
       Forall (Spec.regularizer_is reg) new) /\
  (forall t, AutoEncoder.decoder cls x hyperparameters = Ok t ->
     exists new,
       Keras.history t = Keras.history x ++ new /\
       Forall (Spec.regularizer_is reg) new).
Proof.
  intros init reg. repeat (split; [reflexivity|]).
  split; intros t Hrun.
  - destruct (encoder_appends cls _ _ _ Hrun) as (new & Hnew & HP).
    exists new. split; [exact Hnew|].
    eapply Forall_impl; [exact HP|]. by intros b [_ Hb].
  - destruct (decoder_appends cls _ _ _ Hrun) as (new & Hnew & HP).
    exists new. split; [exact Hnew|].
    eapply Forall_impl; [exact HP|]. by intros b [_ Hb].
Qed.

(** C1, at [AutoEncoder(init_weights='glorot_uniform', reg=l1(0.01))]: the
    constructor stores both settings on the instance, where [self.reg] and
    [self.init_weights] read them back, and yet builds its model, and
    [extract] its encoder, with the class-level regularizer and initializer;
    the precedence of the claim (call site, else instance, else class) would
    give the instance's. *)
Lemma instance_setting_not_consulted :
  let cls := Composable.declared in
  let self := Example.custom_self in
  let h := Example.custom_run.2 in
  Example.custom_run.1 = Ok self /\
  Composable.self_reg (AutoEncoder.base self) = Some (VReg (l1 (1 # 100))) /\
  Composable.self_init_weights (AutoEncoder.base self)
  = Some (VStr "glorot_uniform") /\
  Composable.getattr_reg cls (AutoEncoder.base self) = VReg (l1 (1 # 100)) /\
  Composable.getattr_init_weights cls (AutoEncoder.base self)
  = VStr "glorot_uniform" /\
  exists (full encoder : Keras.model) (e : nat) (first first' : Keras.built),
    h !! 0%nat = Some full /\
    head (Keras.layers full) = Some first /\
    (AutoEncoder.extract cls self h).1 = Ok e /\
    (AutoEncoder.extract cls self h).2 !! e = Some encoder /\
    head (Keras.layers encoder) = Some first' /\
    Keras.kernel_regularizer_of (Keras.config first)
    = Some (VReg (l2 (1 # 1000))) /\
    Keras.kernel_regularizer_of (Keras.config first')
    = Some (VReg (l2 (1 # 1000))) /\
    Keras.kernel_initializer_of (Keras.config first)
    = Some (VStr "he_normal") /\
    Keras.kernel_regularizer_of (Keras.config first)
    <> Some (Spec.resolve None (Composable.self_reg (AutoEncoder.base self))
               (Composable.reg cls)) /\
    Keras.kernel_regularizer_of (Keras.config first')
    <> Some (Spec.resolve None (Composable.self_reg (AutoEncoder.base self))
               (Composable.reg cls)) /\
    Keras.kernel_initializer_of (Keras.config first)
    <> Some (Spec.resolve None
               (Composable.self_init_weights (AutoEncoder.base self))
               (Composable.init_weights cls)).
Proof.
  intros cls self h.
  split; [reflexivity|]. split; [reflexivity|]. split; [reflexivity|].
  split; [reflexivity|]. split; [reflexivity|].
  eexists _, _, _, _, _.
  split; [reflexivity|]. split; [reflexivity|]. split; [reflexivity|].
  split; [reflexivity|]. split; [reflexivity|]. split; [reflexivity|].
  split; [reflexivity|]. split; [reflexivity|].
  split; [discriminate|]. split; discriminate.
Qed.

(** C2 as stated fails: [AutoEncoder(layers=[])] raises nothing and builds a
    model, made of the decoder's fixed 3-channel stage alone. *)
Lemma empty_layer_specs_are_accepted :
  exists (self : AutoEncoder.object) (model : Keras.model),
    Example.empty_run.1 = Ok self /\
    (forall e : exn, Example.empty_run.1 <> Raise e) /\
    AutoEncoder.self_layers self = VList [] /\
    Composable._model (AutoEncoder.base self) = Some 0%nat /\
    Example.empty_run.2 !! 0%nat = Some model /\
    Keras.config <$> Keras.layers model
    = Spec.up_stage None (VStr "he_normal") (VReg (l2 (1 # 1000))) 3.
Proof.
  eexists _, _. split; [reflexivity|]. split; [discriminate|].
  split; [reflexivity|]. split; [reflexivity|]. split; reflexivity.
Qed.

End Precedence.

(** ** The constructor beyond the claims *)
Section Constructor.
Import Py.


(** X2: the constructor either fails and leaves the heap exactly as it was,
    or succeeds and adds exactly one object, an uncompiled model, at a
    reference that was unused and that [self._model] holds; objects already
    in the heap are never changed. *)
Theorem constructor_allocates_one_model_or_nothing (cls : Composable.attrs)
    (layers : value) (shape : list Z) (iw rg : value)
    (h : gmap nat Keras.model) :
  let r := AutoEncoder.__init__ cls layers shape iw rg h in
  (forall l other, h !! l = Some other -> r.2 !! l = Some other) /\
  (forall e, r.1 = Raise e -> r.2 = h) /\
  (forall self, r.1 = Ok self ->
     exists m model,
       Composable._model (AutoEncoder.base self) = Some m /\
       h !! m = None /\
       r.2 = <[ m := model ]> h /\
       Keras.inputs model = shape /\
       Keras.compiled model = None).
Proof.
  intros r. subst r. unfold AutoEncoder.__init__.
  destruct (AutoEncoder.encoder cls _ _) as [enc|e1]; simpl;
    [|split; [done|]; split; [done|discriminate]].
  destruct (AutoEncoder.decoder cls _ _) as [out|e2] eqn:Hdec; simpl;
    [|split; [done|]; split; [done|discriminate]].
  split; [|split; [discriminate|]].
  - intros l other Hl. rewrite lookup_insert_ne; [done|].
    intros Heq. rewrite <- Heq, fresh_unused in Hl. discriminate.
  - intros self [= <-]. eexists _, _. simpl.
    split; [reflexivity|]. split; [apply fresh_unused|].
    split; [reflexivity|]. done.
Qed.

End Constructor.

(** ** [encoder] and [decoder] beyond the claims *)
Section Builders.
Import Py.

Lemma for_each_ext {A S} (body body' : S -> A -> result S) (xs : list A) :
  Forall (fun a => forall s, body s a = body' s a) xs ->
  forall s, for_each body xs s = for_each body' xs s.
Proof.
  induction 1 as [|a xs Ha _ IH]; intros s; [done|].
  rewrite !for_each_cons, Ha. destruct (body' s a); simpl; [apply IH|done].
Qed.

(** [encoder] reads its keywords at ['layers'] and ['reg'] only. *)
Lemma encoder_reads_two_keys (cls : Composable.attrs) (x : Keras.tensor) (kwargs kwargs' : gmap string value) :
  kwargs !! "layers" = kwargs' !! "layers" ->
  kwargs !! "reg" = kwargs' !! "reg" ->
  AutoEncoder.encoder cls x kwargs = AutoEncoder.encoder cls x kwargs'.
Proof.
  intros Hl Hr. unfold AutoEncoder.encoder, bind_keyword, getitem.
  rewrite (lookup_delete_ne kwargs "init_weights" "layers") by discriminate.
  rewrite (lookup_delete_ne kwargs' "init_weights" "layers") by discriminate.
  rewrite (lookup_delete_ne kwargs "init_weights" "reg") by discriminate.
  rewrite (lookup_delete_ne kwargs' "init_weights" "reg") by discriminate.
  by rewrite !lookup_delete_eq, Hl, Hr.
Qed.

Lemma decoder_reads_two_keys (cls : Composable.attrs) (x : Keras.tensor) (kwargs kwargs' : gmap string value) :
  kwargs !! "layers" = kwargs' !! "layers" ->
  kwargs !! "reg" = kwargs' !! "reg" ->
  AutoEncoder.decoder cls x kwargs = AutoEncoder.decoder cls x kwargs'.
Proof.
  intros Hl Hr. unfold AutoEncoder.decoder, bind_keyword, getitem.
  rewrite (lookup_delete_ne kwargs "init_weights" "layers") by discriminate.
  rewrite (lookup_delete_ne kwargs' "init_weights" "layers") by discriminate.
  rewrite (lookup_delete_ne kwargs "init_weights" "reg") by discriminate.
  rewrite (lookup_delete_ne kwargs' "init_weights" "reg") by discriminate.
  by rewrite !lookup_delete_eq, Hl, Hr.
Qed.

Lemma index_past_head {A} (a a' : A) (l : list A) (k : nat) :
  (1 <= k)%nat -> index (a :: l) (Z.of_nat k) = index (a' :: l) (Z.of_nat k).
Proof.
  intros Hk. unfold index. simpl length.
  destruct (Z.ltb_spec (Z.of_nat k) 0) as [?|_]; [lia|].
  rewrite Nat2Z.id. destruct k as [|k]; [lia|]. reflexivity.
Qed.

(** X6: [decoder] never reads the first layer spec.  Replacing the first
    element of [layers] by any other dictionary, with or without an
    ['n_filters'] entry, gives the same result. *)
Theorem decoder_never_reads_first_spec (cls : Composable.attrs)
    (x : Keras.tensor) (kwargs : gmap string value)
    (d0 d0' : gmap string Z) (tl : list (gmap string Z)) :
  AutoEncoder.decoder cls x (<[ "layers" := VList (d0 :: tl) ]> kwargs)
  = AutoEncoder.decoder cls x (<[ "layers" := VList (d0' :: tl) ]> kwargs).
Proof.
  unfold AutoEncoder.decoder, bind_keyword, getitem.
  rewrite !(lookup_delete_ne _ "init_weights" "layers") by discriminate.
  rewrite !(lookup_delete_ne _ "init_weights" "reg") by discriminate.
  rewrite !lookup_delete_eq, !lookup_insert_eq, !mbind_Ok.
  rewrite !(lookup_insert_ne _ "layers" "reg") by discriminate.
  unfold len.
  change (iter (VList (d0 :: tl))) with (Ok (Spec <$> d0 :: tl)).
  change (iter (VList (d0' :: tl))) with (Ok (Spec <$> d0' :: tl)).
  cbv iota. rewrite !mbind_Ok. cbv beta. rewrite !length_fmap.
  replace (Z.of_nat (length (d0 :: tl)) - 1) with (Z.of_nat (length tl))
    by (simpl length; lia).
  replace (Z.of_nat (length (d0' :: tl)) - 1) with (Z.of_nat (length tl))
    by (simpl length; lia).
  rewrite range_down.
  erewrite for_each_ext; [reflexivity|].
  apply Forall_fmap, Forall_forall. intros k Hk s. cbv beta.
  rewrite !fmap_cons.
  rewrite (index_past_head (Spec d0) (Spec d0') (Spec <$> tl) k); [done|].
  apply list_elem_of_In, in_rev, in_seq in Hk. lia.
Qed.

(** X7: with an empty [layers] list, [encoder] returns its input unchanged
    and [decoder] appends the fixed 3-channel stage and nothing else. *)
Theorem builders_on_empty_layers (cls : Composable.attrs) (x : Keras.tensor)
    (kwargs : gmap string value) :
  kwargs !! "layers" = Some (VList []) ->
  AutoEncoder.encoder cls x kwargs = Ok x /\
  AutoEncoder.decoder cls x kwargs
  = Ok (Spec.extend x
          [Spec.up_stage (Composable.relu cls) (AutoEncoder.init_weights cls)
             (Spec.resolve_static (kwargs !! "reg") (AutoEncoder.reg cls)) 3]).
Proof.
  intros Hl.
  assert (Hfs : Spec.filters_of [] []) by constructor.
  split.
  - rewrite (encoder_built cls x kwargs [] [] Hl Hfs).
    by rewrite fmap_nil, extend_nil.
  - by rewrite (decoder_built cls x kwargs [] [] Hl Hfs).
Qed.

Lemma builders_on_empty_layers_witness :
  let x := Keras.Input [32; 32; 3] in
  let kwargs : gmap string value := {[ "layers" := VList [] ]} in
  kwargs !! "layers" = Some (VList []) /\
  AutoEncoder.encoder Composable.declared x kwargs = Ok x /\
  AutoEncoder.decoder Composable.declared x kwargs
  = Ok (Spec.extend x
          [Spec.up_stage (Composable.relu Composable.declared)
             (AutoEncoder.init_weights Composable.declared)
             (Spec.resolve_static (kwargs !! "reg")
                (AutoEncoder.reg Composable.declared)) 3]).
Proof.
  intros x kwargs.
  assert (H1 : kwargs !! "layers" = Some (VList [])) by reflexivity.
  split; [exact H1|].
  exact (builders_on_empty_layers Composable.declared x kwargs H1).
Defined.

End Builders.

(** ** Weights, [extract] and [compile] beyond the claims *)
Section Lifecycle.
Import Py.

Lemma dom_overwrite (h : gmap nat Keras.model) (m : nat) (old new : Keras.model) :
  h !! m = Some old -> dom (<[ m := new ]> h) = dom h.
Proof.
  intros Hm. rewrite dom_insert_L.
  apply subseteq_union_1_L, singleton_subseteq_l. by eapply elem_of_dom_2.
Qed.

(** What [extract] returns depends on the heap only through the weights of
    the model [self._model] refers to, and through the next unused
    reference. *)
Lemma extract_two_heaps (cls : Composable.attrs) (self : AutoEncoder.object)
    (m : nat) (model model' : Keras.model) (h h' : gmap nat Keras.model) :
  Composable._model (AutoEncoder.base self) = Some m ->
  h !! m = Some model ->
  h' !! m = Some model' ->
  Keras.get_weights model' = Keras.get_weights model ->
  (forall ex, (AutoEncoder.extract cls self h).1 = Raise ex <->
              (AutoEncoder.extract cls self h').1 = Raise ex) /\
  (forall e, (AutoEncoder.extract cls self h).1 = Ok e ->
     exists encoder,
       e = fresh (dom h) /\
       (AutoEncoder.extract cls self h).2 = <[ e := encoder ]> h /\
       (AutoEncoder.extract cls self h').1 = Ok (fresh (dom h')) /\
       (AutoEncoder.extract cls self h').2
       = <[ fresh (dom h') := encoder ]> h' /\
       Keras.compiled encoder = None).
Proof.
  intros Hm Hh Hh' Hw. unfold AutoEncoder.extract.
  rewrite Hm, Hh, Hh', Hw.
  destruct (len (AutoEncoder.self_layers self)) as [n|]; [|by split].
  destruct (AutoEncoder.encoder cls _ _) as [outputs|]; [|by split].
  unfold Keras.set_weights. case_decide; simpl; split; try done.
  intros e [= <-]. by eexists.
Qed.

Lemma extract_ok (cls : Composable.attrs) (self : AutoEncoder.object)
    (h : gmap nat Keras.model) (m : nat) (model : Keras.model)
    (ls : list (gmap string Z)) (fs : list Z) :
  Composable._model (AutoEncoder.base self) = Some m ->
  h !! m = Some model ->
  AutoEncoder.self_layers self = VList ls ->
  Spec.filters_of ls fs ->
  (6 * length ls <= length (Keras.get_weights model))%nat ->
  AutoEncoder.extract cls self h
  = (Ok (fresh (dom h)),
     <[ fresh (dom h) :=
          {| Keras.inputs := AutoEncoder.input_shape self;
             Keras.layers :=
               Keras.load
                 (Keras.instantiate
                    <$> concat (Spec.down_stage (Composable.relu cls)
                                  (Composable.init_weights cls)
                                  (Composable.reg cls) <$> fs))
                 (take (6 * length ls) (Keras.get_weights model));
             Keras.compiled := None |} ]> h).
Proof.
  intros Hm Hh Hls Hfs Hfull.
  rewrite (extract_run cls self h m model ls fs Hm Hh Hls Hfs). cbv zeta.
  unfold Keras.set_weights. rewrite decide_True; [reflexivity|].
  rewrite length_take_le by exact Hfull.
  rewrite encoder_weight_count. by rewrite (Forall2_length _ _ _ Hfs).
Qed.

Lemma same_architecture_config (model built : Keras.model) :
  Spec.same_architecture model built ->
  Keras.config <$> Keras.layers model = Keras.config <$> Keras.layers built.
Proof.
  intros [_ Hl].
  induction Hl as [|b b' l l' [Hb _] _ IH]; [done|].
  by rewrite !fmap_cons, Hb, IH.
Qed.

(** X9: the model [extract] returns has the architecture of the full
    model's encoder half and is not compiled: its layer configurations are
    the first 3 x N of the full model's, its input shape is the full
    model's, and it carries no training configuration, whether or not the
    full model was compiled. *)
Theorem extracted_encoder_is_uncompiled_prefix (cls : Composable.attrs)
    (ls : list (gmap string Z)) (fs : list Z) (shape : list Z)
    (iw rg : value) (h0 : gmap nat Keras.model) :
  Spec.filters_of ls fs ->
  exists (self : AutoEncoder.object) (m : nat) (built : Keras.model),
    AutoEncoder.__init__ cls (VList ls) shape iw rg h0
    = (Ok self, <[ m := built ]> h0) /\
    forall (h : gmap nat Keras.model) (model : Keras.model),
      h !! m = Some model ->
      Spec.same_architecture model built ->
      exists (e : nat) (encoder : Keras.model),
        AutoEncoder.extract cls self h = (Ok e, <[ e := encoder ]> h) /\
        Keras.config <$> Keras.layers encoder
        = take (3 * length ls) (Keras.config <$> Keras.layers model) /\
        Keras.inputs encoder = Keras.inputs model /\
        Keras.compiled encoder = None.
Proof.
  intros Hfs. pose proof (Forall2_length _ _ _ Hfs) as Hl.
  eexists _, _, _. split; [by apply init_built with (fs := fs)|].
  intros h model Hh Harch.
  assert (Hfull : (6 * length ls <= length (Keras.get_weights model))%nat).
  { rewrite (same_architecture_weights _ _ Harch), Hl.
    apply autoencoder_weight_count. }
  erewrite (extract_ok cls _ h _ model ls fs); [|done..].
  eexists _, _. split; [reflexivity|]. simpl.
  split; [|split; [by destruct Harch as [-> _]|reflexivity]].
  rewrite load_config, (same_architecture_config _ _ Harch).
  unfold Keras.Model, Spec.extend, Spec.autoencoder_stages. simpl.
  rewrite concat_app, !fmap_app. symmetry. apply take_app_length'.
  rewrite !length_fmap, Hl. clear.
  induction fs as [|n fs IH]; [done|].
  rewrite fmap_cons. simpl concat. simpl length. rewrite <- IH. lia.
Qed.

Lemma extracted_encoder_is_uncompiled_prefix_witness :
  Spec.filters_of AutoEncoder.layers [64; 32; 16] /\
  exists (self : AutoEncoder.object) (m : nat) (built : Keras.model),
    AutoEncoder.__init__ Composable.declared (VList AutoEncoder.layers)
      [32; 32; 3] (VStr "he_normal") VNone ∅
    = (Ok self, <[ m := built ]> ∅) /\
    forall (h : gmap nat Keras.model) (model : Keras.model),
      h !! m = Some model ->
      Spec.same_architecture model built ->
      exists (e : nat) (encoder : Keras.model),
        AutoEncoder.extract Composable.declared self h
        = (Ok e, <[ e := encoder ]> h) /\
        Keras.config <$> Keras.layers encoder
        = take (3 * length AutoEncoder.layers)
            (Keras.config <$> Keras.layers model) /\
        Keras.inputs encoder = Keras.inputs model /\
        Keras.compiled encoder = None.
Proof.
  assert (H1 : Spec.filters_of AutoEncoder.layers [64; 32; 16])
    by (repeat constructor).
  split; [exact H1|].
  exact (extracted_encoder_is_uncompiled_prefix Composable.declared
           AutoEncoder.layers [64; 32; 16] [32; 32; 3] (VStr "he_normal")
           VNone ∅ H1).
Defined.

(** X10: [compile] touches nothing but the training configuration of the
    model [self._model] refers to: that model keeps its inputs, layers and
    weight arrays, every other object of the heap is unchanged, and no
    object is added. *)
Theorem compile_changes_training_only (self : AutoEncoder.object)
    (optimizer : value) (h : gmap nat Keras.model) (m : nat)
    (model : Keras.model) :
  Composable._model (AutoEncoder.base self) = Some m ->
  h !! m = Some model ->
  let r := AutoEncoder.compile self optimizer h in
  (exists model',
     r.2 !! m = Some model' /\
     Keras.inputs model' = Keras.inputs model /\
     Keras.layers model' = Keras.layers model /\
     Keras.get_weights model' = Keras.get_weights model) /\
  (forall l other, l <> m -> h !! l = Some other -> r.2 !! l = Some other) /\
  dom r.2 = dom h.
Proof.
  intros Hm Hh r. subst r. unfold AutoEncoder.compile. rewrite Hm, Hh. simpl.
  split; [|split].
  - eexists. rewrite lookup_insert_eq. split; [reflexivity|]. done.
  - intros l other Hne Hl. by rewrite lookup_insert_ne.
  - by eapply dom_overwrite.
Qed.

Lemma compile_changes_training_only_witness :
  let self := Example.default_self in
  let h := Example.default_run.2 in
  let model := Example.default_model in
  Composable._model (AutoEncoder.base self) = Some 0%nat /\
  h !! 0%nat = Some model /\
  let r := AutoEncoder.compile self (VStr "adam") h in
  (exists model',
     r.2 !! 0%nat = Some model' /\
     Keras.inputs model' = Keras.inputs model /\
     Keras.layers model' = Keras.layers model /\
     Keras.get_weights model' = Keras.get_weights model) /\
  (forall l other, l <> 0%nat -> h !! l = Some other -> r.2 !! l = Some other) /\
  dom r.2 = dom h.
Proof.
  intros self h model.
  assert (H1 : Composable._model (AutoEncoder.base self) = Some 0%nat)
    by reflexivity.
  assert (H2 : h !! 0%nat = Some model) by reflexivity.
  split; [exact H1|]. split; [exact H2|].
  exact (compile_changes_training_only self (VStr "adam") h 0%nat model H1 H2).
Defined.

(** X11: compiling does not change what [extract] gives: after [compile],
    [extract] has the same outcome as before it, and on success returns the
    same reference to an equal, uncompiled encoder model. *)
Theorem extract_unaffected_by_compile (cls : Composable.attrs)
    (self : AutoEncoder.object) (optimizer : value)
    (h : gmap nat Keras.model) (m : nat) (model : Keras.model) :
  Composable._model (AutoEncoder.base self) = Some m ->
  h !! m = Some model ->
  let before := AutoEncoder.extract cls self h in
  let after :=
    AutoEncoder.extract cls self (AutoEncoder.compile self optimizer h).2 in
  after.1 = before.1 /\
  (forall e, before.1 = Ok e ->
     exists encoder,
       before.2 !! e = Some encoder /\
       after.2 !! e = Some encoder /\
       Keras.compiled encoder = None).
Proof.
  intros Hm Hh before after.
  set (h' := (AutoEncoder.compile self optimizer h).2) in *.
  assert (Hh' : exists model', h' !! m = Some model' /\
                  Keras.get_weights model' = Keras.get_weights model).
  { subst h'. unfold AutoEncoder.compile. rewrite Hm, Hh. simpl.
    eexists. by rewrite lookup_insert_eq. }
  destruct Hh' as (model' & Hh' & Hw).
  assert (Hdom : dom h' = dom h).
  { subst h'. unfold AutoEncoder.compile. rewrite Hm, Hh. simpl.
    by eapply dom_overwrite. }
  destruct (extract_two_heaps cls self m model model' h h' Hm Hh Hh' Hw)
    as [Herr Hok].
  fold before after in Herr, Hok. split.
  - destruct (before.1) as [e|ex] eqn:Hb.
    + destruct (Hok e eq_refl) as (enc & -> & _ & Ha & _).
      by rewrite Ha, Hdom.
    + by apply Herr.
  - intros e He. destruct (Hok e He) as (enc & -> & Hb2 & _ & Ha2 & Hc).
    exists enc. rewrite Hb2, Ha2, Hdom. by rewrite !lookup_insert_eq.
Qed.

Lemma extract_unaffected_by_compile_witness :
  let cls := Composable.declared in
  let self := Example.default_self in
  let h := Example.default_run.2 in
  Composable._model (AutoEncoder.base self) = Some 0%nat /\
  h !! 0%nat = Some Example.default_model /\
  let before := AutoEncoder.extract cls self h in
  let after :=
    AutoEncoder.extract cls self
      (AutoEncoder.compile self (VStr "adam") h).2 in
  after.1 = before.1 /\
  (forall e, before.1 = Ok e ->
     exists encoder,
       before.2 !! e = Some encoder /\
       after.2 !! e = Some encoder /\
       Keras.compiled encoder = None).
Proof.
  intros cls self h.
  assert (H1 : Composable._model (AutoEncoder.base self) = Some 0%nat)
    by reflexivity.
  assert (H2 : h !! 0%nat = Some Example.default_model) by reflexivity.
  split; [exact H1|]. split; [exact H2|].
  exact (extract_unaffected_by_compile cls self (VStr "adam") h 0%nat
           Example.default_model H1 H2).
Defined.

(** X12: [extract] can be repeated: a second call after a successful first
    one succeeds too and returns a different reference, distinct from the
    original's, to a model equal to the first encoder, which stays in
    place. *)
Theorem extract_twice_gives_two_equal_encoders (cls : Composable.attrs)
    (self : AutoEncoder.object) (h : gmap nat Keras.model) (m : nat)
    (model : Keras.model) (e1 : nat) :
  Composable._model (AutoEncoder.base self) = Some m ->
  h !! m = Some model ->
  (AutoEncoder.extract cls self h).1 = Ok e1 ->
  let h1 := (AutoEncoder.extract cls self h).2 in
  exists (e2 : nat) (encoder : Keras.model),
    (AutoEncoder.extract cls self h1).1 = Ok e2 /\
    e2 <> e1 /\ e2 <> m /\
    h1 !! e1 = Some encoder /\
    (AutoEncoder.extract cls self h1).2 !! e1 = Some encoder /\
    (AutoEncoder.extract cls self h1).2 !! e2 = Some encoder /\
    (AutoEncoder.extract cls self h1).2 !! m = Some model.
Proof.
  intros Hm Hh He1 h1.
  destruct (extract_two_heaps cls self m model model h h Hm Hh Hh eq_refl)
    as [_ Hok].
  destruct (Hok e1 He1) as (enc & -> & Hh1 & _).
  assert (Hne : fresh (dom h) <> m)
    by (intros Heq; rewrite <- Heq, fresh_unused in Hh; discriminate).
  assert (Hm1 : h1 !! m = Some model)
    by (subst h1; rewrite Hh1; by rewrite lookup_insert_ne).
  assert (He : h1 !! fresh (dom h) = Some enc)
    by (subst h1; rewrite Hh1; apply lookup_insert_eq).
  destruct (extract_two_heaps cls self m model model h h1 Hm Hh Hm1 eq_refl)
    as [_ Hok1].
  destruct (Hok1 _ He1) as (enc' & _ & Hh1' & H2 & H2' & _).
  assert (enc' = enc) as ->.
  { rewrite Hh1 in Hh1'.
    apply (f_equal (fun g => g !! fresh (dom h))) in Hh1'.
    rewrite !lookup_insert_eq in Hh1'. congruence. }
  assert (Hfresh1 : h1 !! fresh (dom h1) = None) by apply fresh_unused.
  exists (fresh (dom h1)), enc. rewrite H2'.
  split; [exact H2|].
  split; [intros Heq; rewrite Heq in Hfresh1; congruence|].
  split; [intros Heq; rewrite Heq in Hfresh1; congruence|].
  split; [exact He|].
  split; [rewrite lookup_insert_ne; [exact He|];
          intros Heq; rewrite Heq in Hfresh1; congruence|].
  split; [apply lookup_insert_eq|].
  rewrite lookup_insert_ne; [exact Hm1|].
  intros Heq; rewrite Heq in Hfresh1; congruence.
Qed.

Lemma extract_twice_gives_two_equal_encoders_witness :
  let cls := Composable.declared in
  let self := Example.default_self in
  let h := Example.default_run.2 in
  Composable._model (AutoEncoder.base self) = Some 0%nat /\
  h !! 0%nat = Some Example.default_model /\
  (AutoEncoder.extract cls self h).1 = Ok 1%nat /\
  let h1 := (AutoEncoder.extract cls self h).2 in
  exists (e2 : nat) (encoder : Keras.model),
    (AutoEncoder.extract cls self h1).1 = Ok e2 /\
    e2 <> 1%nat /\ e2 <> 0%nat /\
    h1 !! 1%nat = Some encoder /\
    (AutoEncoder.extract cls self h1).2 !! 1%nat = Some encoder /\
    (AutoEncoder.extract cls self h1).2 !! e2 = Some encoder /\
    (AutoEncoder.extract cls self h1).2 !! 0%nat = Some Example.default_model.
Proof.
  intros cls self h.
  assert (H1 : Composable._model (AutoEncoder.base self) = Some 0%nat)
    by reflexivity.
  assert (H2 : h !! 0%nat = Some Example.default_model) by reflexivity.
  assert (H3 : (AutoEncoder.extract cls self h).1 = Ok 1%nat)
    by (vm_compute; reflexivity).
  split; [exact H1|]. split; [exact H2|]. split; [exact H3|].
  exact (extract_twice_gives_two_equal_encoders cls self h 0%nat
           Example.default_model 1%nat H1 H2 H3).
Defined.

End Lifecycle.

(** ** Settings of an instance, and the empty layer list *)
Section Settings.
Import Py.

(** C2, as the code has it: with an empty [layers] list, a well-formed input
    shape and the class attributes as declared, the constructor raises
    nothing and builds a model made of the decoder's fixed 3-channel stage
    alone. *)
Theorem constructor_accepts_empty_layer_specs (height width channels : Z)
    (iw rg : value) (h : gmap nat Keras.model) :
  0 < height -> 0 < width -> 0 < channels ->
  let shape := [height; width; channels] in
  exists self : AutoEncoder.object,
    AutoEncoder.__init__ Composable.declared (VList []) shape iw rg h
    = (Ok self,
       <[ fresh (dom h) :=
            Keras.Model (Keras.Input shape)
              (Spec.extend (Keras.Input shape)
                 [Spec.up_stage None (VStr "he_normal")
                    (VReg (l2 (1 # 1000))) 3]) ]> h)
    /\ AutoEncoder.self_layers self = VList []
    /\ AutoEncoder.input_shape self = shape
    /\ Composable._model (AutoEncoder.base self) = Some (fresh (dom h)).
Proof.
  intros _ _ _ shape.
  assert (Hfs : Spec.filters_of [] []) by constructor.
  eexists. split.
  - rewrite (init_built Composable.declared [] [] shape iw rg h Hfs).
    reflexivity.
  - by split.
Qed.

Lemma constructor_accepts_empty_layer_specs_witness :
  0 < 32 /\ 0 < 32 /\ 0 < 3 /\
  let shape := [32; 32; 3] in
  exists self : AutoEncoder.object,
    AutoEncoder.__init__ Composable.declared (VList []) shape
      (VStr "he_normal") VNone ∅
    = (Ok self,
       <[ fresh (dom (∅ : gmap nat Keras.model)) :=
            Keras.Model (Keras.Input shape)
              (Spec.extend (Keras.Input shape)
                 [Spec.up_stage None (VStr "he_normal")
                    (VReg (l2 (1 # 1000))) 3]) ]> ∅)
    /\ AutoEncoder.self_layers self = VList []
    /\ AutoEncoder.input_shape self = shape
    /\ Composable._model (AutoEncoder.base self)
       = Some (fresh (dom (∅ : gmap nat Keras.model))).
Proof.
  assert (H1 : 0 < 32) by lia.
  assert (H2 : 0 < 3) by lia.
  split; [exact H1|]. split; [exact H1|]. split; [exact H2|].
  exact (constructor_accepts_empty_layer_specs 32 32 3 (VStr "he_normal")
           VNone ∅ H1 H1 H2).
Defined.

(** C9, at [Composable(relu=6.0)]: the constructor stores the clamp on the
    instance, where [self.relu] reads it back, and yet the activation helper
    builds [ReLU(None)]: the input 9 comes out as 9, above the configured
    maximum 6. *)
Theorem instance_clamp_not_applied :
  let cls := Composable.declared in
  let self := Example.clamped_self in
  let x := Keras.Input [32; 32; 3] in
  Composable.self_relu self = Some (6 # 1) /\
  Composable.getattr_relu cls self = Some (6 # 1) /\
  Keras.history (Composable.ReLU cls x)
  = [{| Keras.config := Keras.ReLU None; Keras.variables := [] |}] /\
  (Keras.relu None (9 # 1) == 9 # 1)%Q /\
  (Keras.relu (Composable.getattr_relu cls self) (9 # 1) == 6 # 1)%Q /\
  ~ (Keras.relu None (9 # 1) <= 6 # 1)%Q.
Proof.
  intros cls self x.
  split; [reflexivity|]. split; [reflexivity|]. split; [reflexivity|].
  split; [vm_compute; reflexivity|]. split; [vm_compute; reflexivity|].
  vm_compute. intros Hle. by apply Hle.
Qed.

End Settings.

(** ** What [extract] returns *)
Section Extraction.
Import Py.

Lemma config_instantiate (l : list Keras.layer) :
  Keras.config <$> (Keras.instantiate <$> l) = l.
Proof.
  rewrite <- list_fmap_compose.
  induction l as [|a l IH]; [done|]. rewrite fmap_cons. by f_equal.
Qed.

(** C10: [extract] leaves the original alone and returns a newly constructed
    encoder-only model.  Whatever it does, the object [self._model] refers
    to -- its layer graph, weight arrays and training configuration -- and
    every other object that existed before are the same after the call, and
    a reference it returns was unused before.  On an autoencoder built from
    layer specs with filter counts [fs] it does return: the new model sits
    at a fresh reference, takes the autoencoder's input shape, consists of
    exactly the encoder's stages for [fs], and is not compiled. *)
Theorem extract_returns_new_encoder_keeps_original (cls : Composable.attrs) :
  (forall (self : AutoEncoder.object) (h : gmap nat Keras.model) (m : nat)
          (model : Keras.model),
     Composable._model (AutoEncoder.base self) = Some m ->
     h !! m = Some model ->
     let r := AutoEncoder.extract cls self h in
     r.2 !! m = Some model /\
     (forall (l : nat) (other : Keras.model),
        h !! l = Some other -> r.2 !! l = Some other) /\
     (forall e : nat,
        r.1 = Ok e -> h !! e = None /\ e <> m /\ is_Some (r.2 !! e))) /\
  (forall (ls : list (gmap string Z)) (fs : list Z) (shape : list Z)
          (iw rg : value) (h0 : gmap nat Keras.model),
     Spec.filters_of ls fs ->
     exists (self : AutoEncoder.object) (m : nat) (built : Keras.model),
       AutoEncoder.__init__ cls (VList ls) shape iw rg h0
       = (Ok self, <[ m := built ]> h0) /\
       forall (h : gmap nat Keras.model) (model : Keras.model),
         h !! m = Some model ->
         Spec.same_architecture model built ->
         exists (e : nat) (encoder : Keras.model),
           AutoEncoder.extract cls self h = (Ok e, <[ e := encoder ]> h) /\
           h !! e = None /\
           e <> m /\
           Keras.inputs encoder = shape /\
           Keras.config <$> Keras.layers encoder
           = concat (Spec.down_stage (Composable.relu cls)
                       (AutoEncoder.init_weights cls) (AutoEncoder.reg cls)
                       <$> fs) /\
           Keras.compiled encoder = None /\
           (<[ e := encoder ]> h) !! m = Some model).
Proof.
  split.
  - intros self h m model Hm Hh.
    exact (extract_leaves_original_untouched cls self h m model Hm Hh).
  - intros ls fs shape iw rg h0 Hfs.
    pose proof (Forall2_length _ _ _ Hfs) as Hl.
    eexists _, _, _. split; [by apply init_built with (fs := fs)|].
    intros h model Hh Harch.
    assert (Hfull : (6 * length ls <= length (Keras.get_weights model))%nat).
    { rewrite (same_architecture_weights _ _ Harch), Hl.
      apply autoencoder_weight_count. }
    erewrite (extract_ok cls _ h _ model ls fs); [|done..].
    assert (Hne : fresh (dom h) <> fresh (dom h0))
      by (intros Heq; rewrite <- Heq, fresh_unused in Hh; discriminate).
    eexists _, _. split; [reflexivity|].
    split; [apply fresh_unused|]. split; [exact Hne|].
    split; [reflexivity|].
    split; [simpl; by rewrite load_config, config_instantiate|].
    split; [reflexivity|].
    by rewrite lookup_insert_ne.
Qed.

Lemma extract_returns_new_encoder_keeps_original_witness :
  let cls := Composable.declared in
  let self := Example.default_self in
  let h := Example.default_run.2 in
  (Composable._model (AutoEncoder.base self) = Some 0%nat /\
   h !! 0%nat = Some Example.default_model /\
   let r := AutoEncoder.extract cls self h in
   r.2 !! 0%nat = Some Example.default_model /\
   (forall (l : nat) (other : Keras.model),
      h !! l = Some other -> r.2 !! l = Some other) /\
   (forall e : nat,
      r.1 = Ok e -> h !! e = None /\ e <> 0%nat /\ is_Some (r.2 !! e))) /\
  (Spec.filters_of AutoEncoder.layers [64; 32; 16] /\
   exists (self : AutoEncoder.object) (m : nat) (built : Keras.model),
     AutoEncoder.__init__ cls (VList AutoEncoder.layers) [32; 32; 3]
       (VStr "he_normal") VNone ∅
     = (Ok self, <[ m := built ]> ∅) /\
     forall (h : gmap nat Keras.model) (model : Keras.model),
       h !! m = Some model ->
       Spec.same_architecture model built ->
       exists (e : nat) (encoder : Keras.model),
         AutoEncoder.extract cls self h = (Ok e, <[ e := encoder ]> h) /\
         h !! e = None /\
         e <> m /\
         Keras.inputs encoder = [32; 32; 3] /\
         Keras.config <$> Keras.layers encoder
         = concat (Spec.down_stage (Composable.relu cls)
                     (AutoEncoder.init_weights cls) (AutoEncoder.reg cls)
                     <$> [64; 32; 16]) /\
         Keras.compiled encoder = None /\
         (<[ e := encoder ]> h) !! m = Some model).
Proof.
  intros cls self h. split.
  - assert (H1 : Composable._model (AutoEncoder.base self) = Some 0%nat)
      by reflexivity.
    assert (H2 : h !! 0%nat = Some Example.default_model) by reflexivity.
    split; [exact H1|]. split; [exact H2|].
    exact (proj1 (extract_returns_new_encoder_keeps_original cls) self h
             0%nat Example.default_model H1 H2).
  - assert (H3 : Spec.filters_of AutoEncoder.layers [64; 32; 16])
      by (repeat constructor).
    split; [exact H3|].
    exact (proj2 (extract_returns_new_encoder_keeps_original cls)
             AutoEncoder.layers [64; 32; 16] [32; 32; 3] (VStr "he_normal")
             VNone ∅ H3).
Defined.

End Extraction.

(** ** Keywords of the builders, and the weights of the full model *)
Section KeywordsAndWeights.
Import Py.

(** X4: [encoder] and [decoder] have no default for [layers].  Called with
    [x] and without the keyword both raise [KeyError('layers')]; called with
    [layers=None], a number or a regularizer object both raise [TypeError];
    in each case before any layer is built and whatever the remaining
    keywords are. *)
Theorem builders_require_layers (cls : Composable.attrs) (x : Keras.tensor)
    (kwargs : gmap string value) :
  kwargs !! "x" = None ->
  (kwargs !! "layers" = None ->
   AutoEncoder.encoder cls x kwargs = Raise (KeyError "layers") /\
   AutoEncoder.decoder cls x kwargs = Raise (KeyError "layers")) /\
  (forall v,
     kwargs !! "layers" = Some v ->
     (v = VNone \/ (exists q, v = VNum q) \/ (exists r, v = VReg r)) ->
     AutoEncoder.encoder cls x kwargs = Raise TypeError /\
     AutoEncoder.decoder cls x kwargs = Raise TypeError).
Proof.
  intros _. split.
  - intros Hl. unfold AutoEncoder.encoder, AutoEncoder.decoder, bind_keyword,
      getitem.
    rewrite (lookup_delete_ne kwargs "init_weights" "layers") by discriminate.
    by rewrite Hl.
  - intros v Hl Hv.
    unfold AutoEncoder.encoder, AutoEncoder.decoder, bind_keyword, getitem.
    rewrite (lookup_delete_ne kwargs "init_weights" "layers") by discriminate.
    rewrite Hl, !mbind_Ok.
    destruct Hv as [->|[[q ->]|[r ->]]]; by split.
Qed.

Lemma builders_require_layers_witness :
  let x := Keras.Input [32; 32; 3] in
  let absent : gmap string value := {[ "reg" := VReg (l2 (1 # 100)) ]} in
  let none : gmap string value := {[ "layers" := VNone ]} in
  (absent !! "x" = None /\ absent !! "layers" = None /\
   AutoEncoder.encoder Composable.declared x absent = Raise (KeyError "layers") /\
   AutoEncoder.decoder Composable.declared x absent = Raise (KeyError "layers")) /\
  (none !! "x" = None /\ none !! "layers" = Some VNone /\
   AutoEncoder.encoder Composable.declared x none = Raise TypeError /\
   AutoEncoder.decoder Composable.declared x none = Raise TypeError).
Proof.
  intros x absent none. split.
  - assert (H0 : absent !! "x" = None) by reflexivity.
    assert (H1 : absent !! "layers" = None) by reflexivity.
    split; [exact H0|]. split; [exact H1|].
    exact (proj1 (builders_require_layers Composable.declared x absent H0) H1).
  - assert (H0 : none !! "x" = None) by reflexivity.
    assert (H2 : none !! "layers" = Some VNone) by reflexivity.
    split; [exact H0|]. split; [exact H2|].
    exact (proj2 (builders_require_layers Composable.declared x none H0)
             VNone H2 (or_introl eq_refl)).
Defined.

(** X5: keywords that [encoder] and [decoder] do not read are silently
    ignored.  Two calls with the same [x] whose keywords (none of them named
    [x]) agree on [layers] and [reg] give the same result, whatever else
    the two keyword dictionaries hold. *)
Theorem unread_keywords_are_ignored (cls : Composable.attrs)
    (x : Keras.tensor) (kwargs kwargs' : gmap string value) :
  kwargs !! "x" = None ->
  kwargs' !! "x" = None ->
  kwargs !! "layers" = kwargs' !! "layers" ->
  kwargs !! "reg" = kwargs' !! "reg" ->
  AutoEncoder.encoder cls x kwargs = AutoEncoder.encoder cls x kwargs' /\
  AutoEncoder.decoder cls x kwargs = AutoEncoder.decoder cls x kwargs'.
Proof.
  intros _ _ Hl Hr. split.
  - by apply encoder_reads_two_keys.
  - by apply decoder_reads_two_keys.
Qed.

Lemma unread_keywords_are_ignored_witness :
  let x := Keras.Input [32; 32; 3] in
  let kwargs : gmap string value := {[ "layers" := VList AutoEncoder.layers ]} in
  let kwargs' : gmap string value :=
    <[ "regularizer" := VReg (l1 (1 # 100)) ]>
      (<[ "relu" := VNum (6 # 1) ]> kwargs) in
  kwargs !! "x" = None /\
  kwargs' !! "x" = None /\
  kwargs !! "layers" = kwargs' !! "layers" /\
  kwargs !! "reg" = kwargs' !! "reg" /\
  AutoEncoder.encoder Composable.declared x kwargs
  = AutoEncoder.encoder Composable.declared x kwargs' /\
  AutoEncoder.decoder Composable.declared x kwargs
  = AutoEncoder.decoder Composable.declared x kwargs'.
Proof.
  intros x kwargs kwargs'.
  assert (H1 : kwargs !! "x" = None) by reflexivity.
  assert (H2 : kwargs' !! "x" = None) by reflexivity.
  assert (H3 : kwargs !! "layers" = kwargs' !! "layers") by reflexivity.
  assert (H4 : kwargs !! "reg" = kwargs' !! "reg") by reflexivity.
  split; [exact H1|]. split; [exact H2|]. split; [exact H3|].
  split; [exact H4|].
  exact (unread_keywords_are_ignored Composable.declared x kwargs kwargs'
           H1 H2 H3 H4).
Defined.

Lemma length_stage_layers (stages : list (list Keras.layer)) :
  Forall (fun st => length st = 3%nat) stages ->
  length (concat stages) = (3 * length stages)%nat.
Proof.
  induction 1 as [|st stages Hst _ IH]; [done|].
  simpl concat. rewrite length_app, Hst, IH. simpl length. lia.
Qed.

(** X8: the model the constructor builds from N >= 1 layer specs has 6 x N
    layers and owns 12 x N weight arrays.  Its first 3 x N layers are the
    encoder's stages, and the first 6 x N arrays of its weight sequence are
    exactly the arrays of those layers: the slice [extract] takes ends where
    the encoder ends. *)
Theorem full_model_weights_split_at_encoder (cls : Composable.attrs)
    (ls : list (gmap string Z)) (fs : list Z) (shape : list Z) (iw rg : value)
    (h : gmap nat Keras.model) :
  Spec.filters_of ls fs ->
  (1 <= length ls)%nat ->
  exists (self : AutoEncoder.object) (m : nat) (full : Keras.model),
    AutoEncoder.__init__ cls (VList ls) shape iw rg h
    = (Ok self, <[ m := full ]> h) /\
    length (Keras.layers full) = (6 * length ls)%nat /\
    length (Keras.get_weights full) = (12 * length ls)%nat /\
    Keras.config <$> take (3 * length ls) (Keras.layers full)
    = concat (Spec.down_stage (Composable.relu cls)
                (AutoEncoder.init_weights cls) (AutoEncoder.reg cls) <$> fs) /\
    take (6 * length ls) (Keras.get_weights full)
    = concat (Keras.variables <$> take (3 * length ls) (Keras.layers full)).
Proof.
  intros Hfs Hlen.
  pose proof (Forall2_length _ _ _ Hfs) as Hl.
  eexists _, _, _. split; [by apply init_built with (fs := fs)|].
  unfold AutoEncoder.init_weights, AutoEncoder.reg.
  set (downs := Spec.down_stage (Composable.relu cls)
                  (Composable.init_weights cls) (Composable.reg cls) <$> fs).
  set (ups := Spec.up_stage (Composable.relu cls)
                (Composable.init_weights cls) (Composable.reg cls)
                <$> rev (drop 1 fs)).
  set (final := Spec.up_stage (Composable.relu cls)
                  (Composable.init_weights cls) (Composable.reg cls) 3).
  assert (Hthree : forall (st : Z -> list Keras.layer) (l : list Z),
            (forall n, length (st n) = 3%nat) ->
            Forall (fun s => length s = 3%nat) (st <$> l))
    by (intros st l Hst; apply Forall_fmap, Forall_forall; intros n _; apply Hst).
  assert (Hd : length (Keras.instantiate <$> concat downs)
               = (3 * length ls)%nat).
  { rewrite length_fmap. subst downs.
    rewrite length_stage_layers by (by apply Hthree).
    by rewrite length_fmap, Hl. }
  assert (Hu : length (concat ups) = (3 * (length ls - 1))%nat).
  { subst ups. rewrite length_stage_layers by (by apply Hthree).
    rewrite length_fmap, length_rev, length_drop. lia. }
  assert (Hdw :
    length (concat (Keras.variables <$> (Keras.instantiate <$> concat downs)))
    = (6 * length ls)%nat).
  { subst downs. rewrite (length_stage_weights _ (down_stages_six _ _ _ fs)).
    by rewrite length_fmap, Hl. }
  assert (Hlayers :
    Keras.layers
      (Keras.Model (Keras.Input shape)
         (Spec.extend (Keras.Input shape)
            (Spec.autoencoder_stages (Composable.relu cls)
               (Composable.init_weights cls) (Composable.reg cls) fs)))
    = (Keras.instantiate <$> concat downs)
      ++ (Keras.instantiate <$> concat (ups ++ [final]))).
  { unfold Keras.Model, Spec.extend, Spec.autoencoder_stages. simpl.
    by rewrite concat_app, fmap_app. }
  assert (Hr : length (Keras.instantiate <$> concat (ups ++ [final]))
               = (3 * length ls)%nat).
  { rewrite length_fmap, concat_app, length_app, Hu. simpl. lia. }
  assert (Hrw :
    length (concat (Keras.variables
                      <$> (Keras.instantiate <$> concat (ups ++ [final]))))
    = (6 * length ls)%nat).
  { rewrite (length_stage_weights (ups ++ [final])).
    - rewrite length_app. subst ups.
      rewrite length_fmap, length_rev, length_drop. simpl. lia.
    - apply Forall_app. split; [apply up_stages_six|].
      by repeat constructor. }
  rewrite Hlayers. unfold Keras.get_weights. rewrite Hlayers.
  set (D := Keras.instantiate <$> concat downs) in *.
  set (R := Keras.instantiate <$> concat (ups ++ [final])) in *.
  rewrite (take_app_length' D R _ (eq_sym Hd)).
  rewrite fmap_app, concat_app.
  split; [|split; [|split]].
  - rewrite length_app, Hd, Hr. lia.
  - rewrite length_app, Hdw, Hrw. lia.
  - apply config_instantiate.
  - by rewrite (take_app_length' _ _ _ (eq_sym Hdw)).
Qed.

Lemma full_model_weights_split_at_encoder_witness :
  let cls := Composable.declared in
  Spec.filters_of AutoEncoder.layers [64; 32; 16] /\
  (1 <= length AutoEncoder.layers)%nat /\
  exists (self : AutoEncoder.object) (m : nat) (full : Keras.model),
    AutoEncoder.__init__ cls (VList AutoEncoder.layers) [32; 32; 3]
      (VStr "he_normal") VNone ∅
    = (Ok self, <[ m := full ]> ∅) /\
    length (Keras.layers full) = (6 * length AutoEncoder.layers)%nat /\
    length (Keras.get_weights full) = (12 * length AutoEncoder.layers)%nat /\
    Keras.config <$> take (3 * length AutoEncoder.layers) (Keras.layers full)
    = concat (Spec.down_stage (Composable.relu cls)
                (AutoEncoder.init_weights cls) (AutoEncoder.reg cls)
                <$> [64; 32; 16]) /\
    take (6 * length AutoEncoder.layers) (Keras.get_weights full)
    = concat (Keras.variables
                <$> take (3 * length AutoEncoder.layers) (Keras.layers full)).
Proof.
  intros cls.
  assert (H1 : Spec.filters_of AutoEncoder.layers [64; 32; 16])
    by (repeat constructor).
  assert (H2 : (1 <= length AutoEncoder.layers)%nat) by (simpl; lia).
  split; [exact H1|]. split; [exact H2|].
  exact (full_model_weights_split_at_encoder cls AutoEncoder.layers
           [64; 32; 16] [32; 32; 3] (VStr "he_normal") VNone ∅ H1 H2).
Defined.

End KeywordsAndWeights.
